(** * pronotepy.ent.generic_func: the generic ENT login procedures

    A shallow embedding of [pronotepy/ent/generic_func.py] and the
    properties of its eight procedures.

    What is modelled, and how:
    - Python values that the procedures pass around are a small tagged
      union ([value]); the module is marked [# type: ignore] and
      [@typing.no_type_check], and one of its call sites passes arguments
      in an order that does not match the callee's parameters, so the
      EduConnect relay takes dynamically typed arguments.
    - A page ([response.text] as read by [BeautifulSoup(_, "html.parser")])
      is the tree the parser builds; [find], [findAll], [get_text],
      subscripting and [get] are functions on that tree.
    - A dictionary is an association list in insertion order with Python's
      assignment semantics.
    - What lies outside the module is a parameter, the [network]: which
      URLs the HTTP client refuses before it sends anything (a URL without
      scheme or host, for one), what the servers answer to a request given
      the requests before it, and the cookie policy of the client (what a
      jar keeps of an answer, what it attaches to a request).  A request
      the client accepts is answered (failures of the transport are outside
      the model).  Every exchange is appended to a log, and each session
      owns a cookie jar.
    - Strings are byte strings; text outside ASCII is its UTF-8 encoding.
    - Exceptions are results: a procedure either returns or raises, and the
      world it leaves behind is kept in both cases.
    - Two names the module calls, [educonnect] and [open_ent_ng], are bound
      by none of its statements (its procedures are [_educonnect] and
      [_open_ent_ng]).  The procedures that call them take the binding as a
      parameter; in the module as the file has it both are unbound.
    - [log.debug] only formats its arguments and is left out. *)

From Stdlib Require Import String Ascii List Bool Arith Lia.
Import ListNotations.
Local Open Scope string_scope.
Set Warnings "-register-all".

(** ** Strings *)

Module Str.

(** [needle in hay] for Python strings: [needle] occurs as a substring. *)
Fixpoint contains (needle hay : string) : bool :=
  if String.prefix needle hay then true
  else match hay with
       | EmptyString => false
       | String _ hay' => contains needle hay'
       end.

(** The width in bytes of the white-space character a string starts with,
    0 when it starts with none.  White space is what [\s] matches in a
    [str] pattern: U+0009-000D, U+001C-0020, U+0085, U+00A0, U+1680,
    U+2000-200A, U+2028, U+2029, U+202F, U+205F and U+3000. *)
Definition space_width (s : string) : nat :=
  match s with
  | String a rest =>
      let x := nat_of_ascii a in
      if (((9 <=? x) && (x <=? 13)) || ((28 <=? x) && (x <=? 32)))%nat then 1
      else
        match rest with
        | String b rest' =>
            let y := nat_of_ascii b in
            if ((x =? 194) && ((y =? 133) || (y =? 160)))%nat then 2
            else
              match rest' with
              | String c _ =>
                  let z := nat_of_ascii c in
                  if ((x =? 225) && (y =? 154) && (z =? 128))%nat then 3
                  else if ((x =? 226) && (y =? 128)
                           && (((128 <=? z) && (z <=? 138))
                               || (z =? 168) || (z =? 169) || (z =? 175)))%nat then 3
                  else if ((x =? 226) && (y =? 129) && (z =? 159))%nat then 3
                  else if ((x =? 227) && (y =? 128) && (z =? 128))%nat then 3
                  else 0
              | EmptyString => 0
              end
        | EmptyString => 0
        end
  | EmptyString => 0
  end.

(** The maximal runs of characters that are not white space
    ([re.findall("\S+", s)]); [skip] counts the bytes still to drop of a
    white-space character. *)
Fixpoint tokens_aux (s : string) (cur : string) (skip : nat) : list string :=
  match s with
  | EmptyString => if String.eqb cur "" then [] else [cur]
  | String c s' =>
      match skip with
      | S k => tokens_aux s' cur k
      | O =>
          match space_width s with
          | O => tokens_aux s' (cur ++ String c "") 0
          | S k =>
              if String.eqb cur "" then tokens_aux s' "" k
              else cur :: tokens_aux s' "" k
          end
      end
  end.

Definition tokens (s : string) : list string := tokens_aux s "" 0.

Definition mem (x : string) (l : list string) : bool :=
  existsb (String.eqb x) l.

End Str.

(** ** The parsed page *)

Module Html.

(** A node of the tree [html.parser] builds: a run of text or an element
    with its attribute dictionary and children. *)
Inductive node : Type :=
| Text (s : string)
| Tag (name : string) (attrs : list (string * string)) (children : list node).

(** A parsed document: the children of the [BeautifulSoup] object. *)
Definition soup := list node.

Definition attrs_of (n : node) : list (string * string) :=
  match n with Text _ => [] | Tag _ a _ => a end.

Definition children_of (n : node) : list node :=
  match n with Text _ => [] | Tag _ _ cs => cs end.

Fixpoint assoc (k : string) (l : list (string * string)) : option string :=
  match l with
  | [] => None
  | (k', v) :: l' => if String.eqb k' k then Some v else assoc k l'
  end.

(** [tag.get(key)]: the attribute or [None]. *)
Definition get (n : node) (key : string) : option string :=
  assoc key (attrs_of n).

(** A node followed by everything below it, in document order. *)
Fixpoint subtree (n : node) : list node :=
  match n with
  | Text _ => [n]
  | Tag _ _ cs => n :: flat_map subtree cs
  end.

(** The descendants of a tag (or of the document), in document order. *)
Definition descendants (cs : list node) : list node := flat_map subtree cs.

(** The attributes the tree builder keeps as a list of tokens: for every
    tag and for some tags in particular. *)
Definition multi_valued_everywhere : list string := ["class"; "accesskey"; "dropzone"].

Definition multi_valued_of_tag : list (string * list string) :=
  [("a", ["rel"; "rev"]); ("link", ["rel"; "rev"]);
   ("td", ["headers"]); ("th", ["headers"]);
   ("form", ["accept-charset"]); ("object", ["archive"]);
   ("area", ["rel"]); ("icon", ["sizes"]);
   ("iframe", ["sandbox"]); ("output", ["for"])].

Fixpoint attrs_of_tag (tag : string) (table : list (string * list string)) : list string :=
  match table with
  | [] => []
  | (t, l) :: table' => if String.eqb t tag then l else attrs_of_tag tag table'
  end.

Definition multi_valued (tag attr : string) : bool :=
  Str.mem attr multi_valued_everywhere
  || Str.mem attr (attrs_of_tag tag multi_valued_of_tag).

(** One entry of the [attrs] filter, against a string.  A tag without the
    attribute matches the empty string only.  A multi-valued attribute
    matches when one of its tokens, or its tokens joined by single spaces,
    is the string; any other attribute when its value is the string. *)
Definition attr_matches (n : node) (kv : string * string) : bool :=
  match n with
  | Text _ => false
  | Tag nm _ _ =>
      match get n (fst kv) with
      | None => String.eqb (snd kv) ""
      | Some have =>
          if multi_valued nm (fst kv)
          then Str.mem (snd kv) (Str.tokens have)
               || String.eqb (String.concat " " (Str.tokens have)) (snd kv)
          else String.eqb have (snd kv)
      end
  end.

Definition matches (name : string) (filter : list (string * string))
           (n : node) : bool :=
  match n with
  | Text _ => false
  | Tag nm _ _ => String.eqb nm name && forallb (attr_matches n) filter
  end.

(** [soup.find(name, attrs)]: the first matching descendant, or [None]. *)
Definition find (name : string) (filter : list (string * string))
           (doc : list node) : option node :=
  List.find (matches name filter) (descendants doc).

(** [tag.findAll(name)]: every descendant with that tag name. *)
Definition findAll (name : string) (n : node) : list node :=
  List.filter (matches name []) (descendants (children_of n)).

(** [tag.get_text()]: the text below the tag, concatenated. *)
Fixpoint text_of (n : node) : string :=
  match n with
  | Text s => s
  | Tag _ _ cs => fold_right (fun c acc => text_of c ++ acc) "" cs
  end.

Definition get_text (n : node) : string := text_of n.

End Html.

(** ** Python values, dictionaries and exceptions *)

Module Py.

(** The answer to one request: the URL the client ended on after
    redirects, whether the status is below 400, the parsed body and the
    [Set-Cookie] headers received. *)
Record response : Type := mkResponse {
  r_url : string;
  r_ok : bool;
  r_text : Html.soup;
  r_set_cookie : list string
}.

(** The values that flow through the procedures' parameters. *)
Inductive value : Type :=
| VNone
| VStr (s : string)
| VSession (sid : nat)
| VResponse (r : response).

(** [bool(v)]: [None] and the empty string are false, a response is true
    exactly when it is [ok], a session is always true. *)
Definition truthy (v : value) : bool :=
  match v with
  | VNone => false
  | VStr s => negb (String.eqb s "")
  | VSession _ => true
  | VResponse r => r_ok r
  end.

Definition type_name (v : value) : string :=
  match v with
  | VNone => "NoneType"
  | VStr _ => "str"
  | VSession _ => "Session"
  | VResponse _ => "Response"
  end.

(** An insertion-ordered dictionary. *)
Definition dict := list (string * value).

(** [d[k] = v]: overwrite in place, or append. *)
Fixpoint dict_set (d : dict) (k : string) (v : value) : dict :=
  match d with
  | [] => [(k, v)]
  | (k', v') :: d' =>
      if String.eqb k' k then (k, v) :: d' else (k', v') :: dict_set d' k v
  end.

Fixpoint dict_get (d : dict) (k : string) : option value :=
  match d with
  | [] => None
  | (k', v) :: d' => if String.eqb k' k then Some v else dict_get d' k
  end.

Definition dict_keys (d : dict) : list string := map fst d.

(** An optional attribute as a Python value. *)
Definition of_option (o : option string) : value :=
  match o with None => VNone | Some s => VStr s end.

(** Modelled from the spec: the exception classes of the package come from
    its [exceptions] module, which is not among the sources read here;
    [ENTLoginError] is the login error the procedures raise for a missing
    URL or domain, with its message.  The other constructors are Python's
    own exceptions and those the HTTP client raises for a URL it cannot
    send a request to. *)
Inductive exn : Type :=
| ENTLoginError (msg : string)
| NameError (name : string)
| AttributeError (type attr : string)
| TypeError (msg : string)
| KeyError (key : string)
| ValueError (msg : string)
| MissingSchema
| InvalidSchema
| InvalidURL.

Inductive outcome (A : Type) : Type :=
| Return (a : A)
| Raise (e : exn).
Arguments Return {A} a.
Arguments Raise {A} e.

(** The failures a missing element of a page produces: subscripting
    [None], a missing attribute key, a method of [None]. *)
Definition is_lookup_failure (e : exn) : bool :=
  match e with
  | TypeError _ | KeyError _ | AttributeError _ _ => true
  | _ => false
  end.

(** [tag[key]] where [tag] is the result of a [find]. *)
Definition getitem (t : option Html.node) (key : string) : outcome string :=
  match t with
  | None => Raise (TypeError "'NoneType' object is not subscriptable")
  | Some n =>
      match Html.get n key with
      | Some v => Return v
      | None => Raise (KeyError key)
      end
  end.

(** The loop [for input_ in inputs: payload[input_["name"]] = input_.get("value")]. *)
Fixpoint collect_inputs (inputs : list Html.node) (payload : dict) : outcome dict :=
  match inputs with
  | [] => Return payload
  | input_ :: rest =>
      match getitem (Some input_) "name" with
      | Raise e => Raise e
      | Return name =>
          collect_inputs rest
            (dict_set payload name (of_option (Html.get input_ "value")))
      end
  end.

End Py.

(** ** [urllib.parse.urlparse(url).netloc] *)

Module Urllib.

Definition is_alpha (c : ascii) : bool :=
  let n := nat_of_ascii c in
  (((65 <=? n) && (n <=? 90)) || ((97 <=? n) && (n <=? 122)))%nat.

Definition is_digit (c : ascii) : bool :=
  let n := nat_of_ascii c in ((48 <=? n) && (n <=? 57))%nat.

(** [scheme_chars]: letters, digits, [+], [-] and [.]. *)
Definition is_scheme_char (c : ascii) : bool :=
  let n := nat_of_ascii c in
  (is_alpha c || is_digit c || (n =? 43) || (n =? 45) || (n =? 46))%nat.

Definition is_delim (c : ascii) : bool :=
  let n := nat_of_ascii c in ((n =? 47) || (n =? 63) || (n =? 35))%nat.

(** Leading C0 controls and spaces are stripped. *)
Fixpoint lstrip (s : string) : string :=
  match s with
  | String c s' => if (nat_of_ascii c <=? 32)%nat then lstrip s' else s
  | EmptyString => s
  end.

(** Tabs and line breaks are removed everywhere. *)
Fixpoint remove_unsafe (s : string) : string :=
  match s with
  | EmptyString => EmptyString
  | String c s' =>
      let n := nat_of_ascii c in
      if ((n =? 9) || (n =? 10) || (n =? 13))%nat then remove_unsafe s'
      else String c (remove_unsafe s')
  end.

(** What follows the first [:] when everything before it is a scheme. *)
Fixpoint after_scheme (s : string) : option string :=
  match s with
  | EmptyString => None
  | String c s' =>
      if (nat_of_ascii c =? 58)%nat then Some s'
      else if is_scheme_char c then after_scheme s' else None
  end.

Definition strip_scheme (url : string) : string :=
  match url with
  | String c _ =>
      if is_alpha c then
        match after_scheme url with Some rest => rest | None => url end
      else url
  | EmptyString => url
  end.

Fixpoint take_netloc (s : string) : string :=
  match s with
  | EmptyString => EmptyString
  | String c s' => if is_delim c then EmptyString else String c (take_netloc s')
  end.

Definition has_char (n : nat) (s : string) : bool :=
  existsb (fun c => (nat_of_ascii c =? n)%nat) (list_ascii_of_string s).

(** The network location: what stands between a leading [//] and the next
    [/], [?] or [#].  A lone square bracket is refused ("Invalid IPv6
    URL"); the further validation of a bracketed host is not modelled. *)
Definition netloc (url : string) : Py.outcome string :=
  let url := strip_scheme (remove_unsafe (lstrip url)) in
  match url with
  | String "/" (String "/" rest) =>
      let loc := take_netloc rest in
      if negb (Bool.eqb (has_char 91 loc) (has_char 93 loc))
      then Py.Raise (Py.ValueError "Invalid IPv6 URL")
      else Py.Return loc
  | _ => Py.Return ""
  end.

End Urllib.

(** ** The HTTP client and the world it acts on *)

Module Http.
Import Py.

Inductive method : Type := GET | POST.

(** A cookie as a jar holds it. *)
Record cookie : Type := mkCookie {
  c_domain : string;
  c_path : string;
  c_name : string;
  c_value : string
}.

Definition cookies := list cookie.

(** What reaches the server: method, URL, query parameters, form data,
    headers and the name-value pairs of the [Cookie] header.  [q_params]
    and [q_data] are the dictionaries as the procedure passes them; their
    encoding is the client's business. *)
Record request : Type := mkRequest {
  q_method : method;
  q_url : string;
  q_params : dict;
  q_data : dict;
  q_headers : list (string * string);
  q_cookies : list (string * string)
}.

Record exchange : Type := mkExchange {
  x_session : nat;
  x_request : request;
  x_response : response
}.

(** The log of exchanges, oldest first, and one cookie jar per session
    created so far (a session is the index of its jar). *)
Record world : Type := mkWorld {
  w_log : list exchange;
  w_jars : list cookies
}.

Definition empty_world : world := mkWorld [] [].

(** [session.cookies]: the jar of a session, by reference. *)
Inductive cookiejar : Type := CookiesOf (sid : nat).

Definition jar_of (w : world) (sid : nat) : cookies := nth sid (w_jars w) [].

(** The jars once the jar of session [sid] has become [jar]. *)
Fixpoint update_jar (jars : list cookies) (sid : nat) (jar : cookies) : list cookies :=
  match jars, sid with
  | [], _ => []
  | _ :: js, O => jar :: js
  | j :: js, S n => j :: update_jar js n jar
  end.

(** What lies outside the module.
    - [refuses url]: the exception the client raises instead of sending a
      request to [url], if it does ([MissingSchema], [InvalidSchema],
      [InvalidURL]: the URL has no scheme, no HTTP scheme, no host...).
    - [answers history q]: the answer to request [q], given the requests
      answered before it.
    - [cookie_header jar url]: the cookies a session with that jar attaches
      to a request for [url].
    - [store jar q r]: the jar once the answer [r] to [q] has been received. *)
Record network : Type := mkNetwork {
  refuses : string -> option exn;
  answers : list request -> request -> response;
  cookie_header : cookies -> string -> list (string * string);
  store : cookies -> request -> response -> cookies
}.

(** Computations that act on the world and may raise. *)
Definition M (A : Type) : Type := world -> outcome A * world.

Definition ret {A} (a : A) : M A := fun w => (Return a, w).

Definition raise {A} (e : exn) : M A := fun w => (Raise e, w).

Definition bind {A B} (m : M A) (k : A -> M B) : M B :=
  fun w => match m w with
           | (Return a, w') => k a w'
           | (Raise e, w') => (Raise e, w')
           end.

Definition lift {A} (o : outcome A) : M A := fun w => (o, w).

Definition is_post (x : exchange) : bool :=
  match q_method (x_request x) with POST => true | GET => false end.

End Http.

Declare Scope py_scope.
Delimit Scope py_scope with py.
Notation "x <- m ;; k" := (Http.bind m (fun x => k))
  (at level 100, m at next level, right associativity) : py_scope.
Notation "m ;;; k" := (Http.bind m (fun _ => k))
  (at level 100, right associativity) : py_scope.

(** ** The procedures of [generic_func.py] *)

Module generic_func.
Import Py Http.
Local Open Scope py_scope.

Definition HEADERS : list (string * string) :=
  [("User-Agent",
    "Mozilla/5.0 (X11; Ubuntu; Linux x86_64; rv:73.0) Gecko/20100101 Firefox/73.0")].

Section Network.

(** The client's screening and cookie policy and the servers' answers. *)
Variable net : network.

(** [requests.Session()] *)
Definition Session : M nat :=
  fun w => (Return (length (w_jars w)),
            mkWorld (w_log w) (w_jars w ++ [[]])%list).

(** One request of a session: refused by the client, or sent with the
    cookies the jar attaches, answered and logged, the jar taking what the
    answer brings. *)
Definition send (sid : nat) (m : method) (url : string)
           (params data : dict) (headers : list (string * string)) : M response :=
  fun w =>
    match refuses net url with
    | Some e => (Raise e, w)
    | None =>
        let q := mkRequest m url params data headers
                           (cookie_header net (jar_of w sid) url) in
        let r := answers net (map x_request (w_log w)) q in
        (Return r,
         mkWorld (w_log w ++ [mkExchange sid q r])%list
                 (update_jar (w_jars w) sid (store net (jar_of w sid) q r)))
    end.

(** [session.get(url, params=params, headers=headers)] *)
Definition session_get (sid : nat) (url : string) (params : dict)
           (headers : list (string * string)) : M response :=
  send sid GET url params [] headers.

(** [session.post(url, headers=headers, data=data)] *)
Definition session_post (sid : nat) (url : string)
           (headers : list (string * string)) (data : dict) : M response :=
  send sid POST url [] data headers.

(** The same call when receiver and URL are whatever the caller passed:
    [post] exists on sessions only, and a URL that is not text is turned
    into text that has no scheme. *)
Definition post_dyn (session url : value)
           (headers : list (string * string)) (data : dict) : M response :=
  match session with
  | VSession sid =>
      match url with
      | VStr u => session_post sid u headers data
      | _ => raise MissingSchema
      end
  | _ => raise (AttributeError (type_name session) "post")
  end.

(** Loading a global name of the module. *)
Definition load_global {F : Type} (name : string) (binding : option F) : M F :=
  match binding with
  | Some f => ret f
  | None => raise (NameError name)
  end.

(** [response.url] and [response.text] on a dynamically typed value. *)
Definition getattr_url (v : value) : M string :=
  match v with
  | VResponse r => ret (r_url r)
  | _ => raise (AttributeError (type_name v) "url")
  end.

Definition getattr_text (v : value) : M Html.soup :=
  match v with
  | VResponse r => ret (r_text r)
  | _ => raise (AttributeError (type_name v) "text")
  end.

(** [def _educonnect(session, username, password, url)] *)
Definition _educonnect (session username password url : value) : M value :=
  if negb (truthy url) then raise (ENTLoginError "Missing url attribute")
  else
    let payload := [("j_username", username); ("j_password", password);
                    ("_eventId_proceed", VStr "")] in
    response <- post_dyn session url HEADERS payload ;;
    (* 2nd SAML Authentication *)
    let soup := r_text response in
    match Html.find "input" [("name", "SAMLResponse")] soup with
    | None => ret VNone
    | Some input_SAMLResponse =>
        v <- lift (getitem (Some input_SAMLResponse) "value") ;;
        let payload := [("SAMLResponse", VStr v)] in
        payload <-
          match Html.find "input" [("name", "RelayState")] soup with
          | Some input_relayState =>
              v <- lift (getitem (Some input_relayState) "value") ;;
              ret (dict_set payload "RelayState" (VStr v))
          | None => ret payload
          end ;;
        action <- lift (getitem (Html.find "form" [] soup) "action") ;;
        response <- post_dyn session (VStr action) HEADERS payload ;;
        ret (VResponse response)
    end.

(** The payload the three form-based procedures build:
    [payload = {}], the loop over [form.findAll("input")], then
    [payload["username"] = username] and [payload["password"] = password]. *)
Definition form_payload (form : option Html.node) (username password : string)
  : outcome dict :=
  match form with
  | None => Raise (AttributeError "NoneType" "findAll")
  | Some form =>
      match collect_inputs (Html.findAll "input" form) [] with
      | Raise e => Raise e
      | Return payload =>
          Return (dict_set (dict_set payload "username" (VStr username))
                           "password" (VStr password))
      end
  end.

Section FreeNames.

(** Two names are called by the module but bound by none of its
    statements: [educonnect] and [open_ent_ng].  What the global
    namespace holds for them, if anything, is a parameter ([None]: the
    name is unbound and loading it raises [NameError]). *)
Variable educonnect : option (value -> value -> value -> value -> M value).
Variable open_ent_ng : option (string -> string -> string -> M cookiejar).

(** [def _cas_edu(username, password, url="")] *)
Definition _cas_edu (username password url : string) : M cookiejar :=
  if String.eqb url "" then raise (ENTLoginError "Missing url attribute")
  else
    (* ENT Connection *)
    session <- Session ;;
    response <- session_get session url [] HEADERS ;;
    let soup := r_text response in
    relayState <- lift (getitem (Html.find "input" [("name", "RelayState")] soup) "value") ;;
    samlRequest <- lift (getitem (Html.find "input" [("name", "SAMLRequest")] soup) "value") ;;
    let payload := [("RelayState", VStr relayState);
                    ("SAMLRequest", VStr samlRequest)] in
    action <- lift (getitem (Html.find "form" [] soup) "action") ;;
    response <- session_post session action HEADERS payload ;;
    f <- load_global "educonnect" educonnect ;;
    f (VStr (r_url response)) (VSession session) (VStr username) (VStr password) ;;;
    ret (CookiesOf session).

(** [def _open_ent_ng_edu(username, password, domain="")] *)
Definition _open_ent_ng_edu (username password domain : string) : M cookiejar :=
  if String.eqb domain "" then raise (ENTLoginError "Missing domain attribute")
  else
    (* URL required *)
    let ent_login_page :=
      "https://educonnect.education.gouv.fr/idp/profile/SAML2/Unsolicited/SSO" in
    session <- Session ;;
    let params := [("providerId", VStr (domain ++ "/auth/saml/metadata/idp.xml"))] in
    response <- session_get session ent_login_page params HEADERS ;;
    f <- load_global "educonnect" educonnect ;;
    response <- f (VStr (r_url response)) (VSession session) (VStr username) (VStr password) ;;
    if negb (truthy response) then
      g <- load_global "open_ent_ng" open_ent_ng ;;
      u <- getattr_url response ;;
      g u username password
    else
      text <- getattr_text response ;;
      match Html.find "title" [] text with
      | None => raise (AttributeError "NoneType" "get_text")
      | Some title =>
          if String.eqb (Html.get_text title) "Authentification" then
            g <- load_global "open_ent_ng" open_ent_ng ;;
            u <- getattr_url response ;;
            g u username password
          else ret (CookiesOf session)
      end.

End FreeNames.

(** [def _cas(username, password, url="")] *)
Definition _cas (username password url : string) : M cookiejar :=
  if String.eqb url "" then raise (ENTLoginError "Missing url attribute")
  else
    (* ENT Connection *)
    session <- Session ;;
    response <- session_get session url [] HEADERS ;;
    let soup := r_text response in
    let form := Html.find "form" [("class", "cas__login-form")] soup in
    payload <- lift (form_payload form username password) ;;
    session_post session (r_url response) HEADERS payload ;;;
    ret (CookiesOf session).

(** [def _open_ent_ng(username, password, url="")] *)
Definition _open_ent_ng (username password url : string) : M cookiejar :=
  if String.eqb url "" then raise (ENTLoginError "Missing url attribute")
  else
    (* ENT Connection *)
    session <- Session ;;
    let payload := [("email", VStr username); ("password", VStr password)] in
    session_post session url HEADERS payload ;;;
    ret (CookiesOf session).

(** [def _wayf(username, password, domain="", entityID="", returnX="")] *)
Definition _wayf (username password domain entityID returnX : string) : M cookiejar :=
  if String.eqb domain "" then raise (ENTLoginError "Missing domain attribute")
  else
    let entityID :=
      if String.eqb entityID "" then domain ++ "/shibboleth" else entityID in
    let returnX :=
      if String.eqb returnX "" then domain ++ "/Shibboleth.sso/Login" else returnX in
    let ent_login_page := domain ++ "/discovery/WAYF" in
    (* ENT Connection *)
    session <- Session ;;
    let params := [("entityID", VStr entityID);
                   ("returnX", VStr returnX);
                   ("returnIDParam", VStr "entityID");
                   ("action", VStr "selection");
                   ("origin", VStr "https://_educonnect.education.gouv.fr/idp")] in
    response <- session_get session ent_login_page params HEADERS ;;
    _educonnect (VStr (r_url response)) (VSession session) (VStr username) (VStr password) ;;;
    ret (CookiesOf session).

(** [def _oze_ent(username, password, url="")] *)
Definition _oze_ent (username password url : string) : M cookiejar :=
  if String.eqb url "" then raise (ENTLoginError "Missing url attribute")
  else
    (* ENT Connection *)
    session <- Session ;;
    response <- session_get session url [] HEADERS ;;
    domain <- lift (Urllib.netloc url) ;;
    let username :=
      if negb (Str.contains domain username) then username ++ "@" ++ domain
      else username in
    let soup := r_text response in
    let form := Html.find "form" [("id", "auth_form")] soup in
    payload <- lift (form_payload form username password) ;;
    session_post session (r_url response) HEADERS payload ;;;
    ret (CookiesOf session).

(** [def _simple_auth(username, password, url="", form_attr={})] *)
Definition _simple_auth (username password url : string)
           (form_attr : list (string * string)) : M cookiejar :=
  if String.eqb url "" then raise (ENTLoginError "Missing url attribute")
  else
    (* ENT Connection *)
    session <- Session ;;
    response <- session_get session url [] HEADERS ;;
    let soup := r_text response in
    let form := Html.find "form" form_attr soup in
    payload <- lift (form_payload form username password) ;;
    session_post session (r_url response) HEADERS payload ;;;
    ret (CookiesOf session).

End Network.

End generic_func.

(** ** Concrete pages and networks *)

Module Demo.
Import Py Http Html.

Definition hidden (name value : string) : node :=
  Tag "input" [("type", "hidden"); ("name", name); ("value", value)] [].

Definition page (title : string) (body : list node) : soup :=
  [Tag "html" []
     [Tag "head" [] [Tag "title" [] [Text title]];
      Tag "body" [] body]].

Definition lower_ascii (c : ascii) : ascii :=
  let n := nat_of_ascii c in
  if ((65 <=? n) && (n <=? 90))%nat then ascii_of_nat (n + 32) else c.

Fixpoint lower (s : string) : string :=
  match s with
  | EmptyString => EmptyString
  | String c s' => String (lower_ascii c) (lower s')
  end.

(** A screening in the manner of the HTTP client, for the examples: a URL
    is sent to when, leading white space and case apart, it starts with
    [http://] or [https://] and names a host; it is refused with
    [InvalidURL] when it names none, with [InvalidSchema] when it has a
    colon but not such a start, and with [MissingSchema] when it has no
    colon ([ent.example/login], [/acs], [p]). *)
Definition screen (url : string) : option exn :=
  let u := lower (Urllib.lstrip url) in
  if String.prefix "http://" u || String.prefix "https://" u then
    match Urllib.netloc u with
    | Return EmptyString => Some InvalidURL
    | Return _ => None
    | Raise _ => Some InvalidURL
    end
  else if Urllib.has_char 58 u then Some InvalidSchema
  else Some MissingSchema.

Definition host_of (url : string) : string :=
  match Urllib.netloc url with Return h => h | Raise _ => "" end.

(** What stands before the first character of code [c]. *)
Fixpoint before_char (c : nat) (s : string) : string :=
  match s with
  | EmptyString => EmptyString
  | String a s' => if (nat_of_ascii a =? c)%nat then EmptyString
                   else String a (before_char c s')
  end.

(** What stands after the first character of code [c]. *)
Fixpoint after_char (c : nat) (s : string) : string :=
  match s with
  | EmptyString => EmptyString
  | String a s' => if (nat_of_ascii a =? c)%nat then s' else after_char c s'
  end.

Fixpoint put_cookie (jar : cookies) (c : cookie) : cookies :=
  match jar with
  | [] => [c]
  | c' :: jar' =>
      if String.eqb (c_domain c') (c_domain c) && String.eqb (c_name c') (c_name c)
      then c :: jar'
      else c' :: put_cookie jar' c
  end.

(** A cookie policy of host-only cookies: a [Set-Cookie] header [name=value]
    is kept for the host that sent it and attached to requests for that
    host. *)
Definition host_only_store (jar : cookies) (q : request) (r : response) : cookies :=
  fold_left
    (fun j h =>
       let nv := before_char 59 h in
       put_cookie j (mkCookie (host_of (r_url r)) "/" (before_char 61 nv) (after_char 61 nv)))
    (r_set_cookie r) jar.

Definition host_only_header (jar : cookies) (url : string) : list (string * string) :=
  map (fun c => (c_name c, c_value c))
      (filter (fun c => String.eqb (c_domain c) (host_of url)) jar).

(** The network of given answers, with the screening and the cookie policy
    above. *)
Definition web (answers : list request -> request -> response) : network :=
  mkNetwork screen answers host_only_header host_only_store.

(** Every request is answered with the same page, at the URL that was
    asked for. *)
Definition static (ok : bool) (doc : soup) : network :=
  web (fun _ q => mkResponse (q_url q) ok doc ["JSESSIONID=1"]).

(** Every request is redirected to [final] and answered there. *)
Definition redirecting (final : string) (doc : soup) : network :=
  web (fun _ q => mkResponse final true doc []).

Definition saml_form : soup :=
  page "SAML"
    [Tag "form" [("action", "https://sp.example/acs"); ("method", "post")]
       [hidden "RelayState" "cookie:42"; hidden "SAMLResponse" "PHNhbWw+"]].

Definition saml_request_form : soup :=
  page "Redirect"
    [Tag "form" [("action", "https://idp.example/sso"); ("method", "post")]
       [hidden "RelayState" "ss:mem:1"; hidden "SAMLRequest" "PHJlcT4="]].

Definition cas_form : soup :=
  page "CAS"
    [Tag "form" [("class", "cas__login-form form"); ("action", "/cas/login")]
       [hidden "lt" "LT-1"; hidden "execution" "e1s1";
        Tag "input" [("type", "text"); ("name", "username")] [];
        Tag "input" [("type", "password"); ("name", "password"); ("value", "")] []]].

(** Two hidden inputs share the name [lt]. *)
Definition cas_form_dup : soup :=
  page "CAS"
    [Tag "form" [("class", "cas__login-form"); ("action", "/cas/login")]
       [hidden "lt" "LT-1"; hidden "lt" "LT-2"]].

Definition oze_form : soup :=
  page "Oze"
    [Tag "form" [("id", "auth_form"); ("action", "/auth")]
       [hidden "csrf" "t0k3n";
        Tag "input" [("type", "text"); ("name", "username"); ("value", "")] []]].

Definition plain (title : string) : soup := page title [].

(** An assertion that is not inside any form. *)
Definition assertion_without_form : soup :=
  page "SAML" [hidden "SAMLResponse" "PHNhbWw+"].

(** A network that follows a script: the n-th request is answered by the
    n-th response, later ones by [last]. *)
Definition scripted (script : list response) (last : response)
  : network :=
  web (fun hist _ => nth (length hist) script last).

(** The assertion form with a relative action. *)
Definition saml_form_relative : soup :=
  page "SAML"
    [Tag "form" [("action", "/acs"); ("method", "post")]
       [hidden "RelayState" "cookie:42"; hidden "SAMLResponse" "PHNhbWw+"]].

(** A search form, then the form that holds the assertion. *)
Definition saml_second_form : soup :=
  page "SAML"
    [Tag "form" [("action", "https://sp.example/search"); ("method", "get")]
       [Tag "input" [("type", "text"); ("name", "q")] []];
     Tag "form" [("action", "https://sp.example/acs"); ("method", "post")]
       [hidden "SAMLResponse" "PHNhbWw+"]].

(** The relay called with its arguments in the order of its parameters. *)
Definition relay_in_order (net : network)
  : value -> value -> value -> value -> M value :=
  fun url session username password =>
    generic_func._educonnect net session username password url.

(** A relay that has no further step to report. *)
Definition silent_relay : value -> value -> value -> value -> M value :=
  fun _ _ _ _ => ret VNone.

(** EduConnect answers the discovery, then the credentials with an
    assertion, and the service provider answers the assertion with a page
    entitled [title]. *)
Definition saml_then (ok : bool) (title : string) : network :=
  scripted
    [mkResponse "https://educonnect.example/idp/login" true (plain "EduConnect") [];
     mkResponse "https://educonnect.example/idp/login" true saml_form [];
     mkResponse "https://sp.example/acs" ok (plain title) ["SESSION=s1"]]
    (mkResponse "https://sp.example/home" true (plain "Accueil") []).

End Demo.

(** ** Vocabulary of the statements *)

Module Spec.
Import Py Http Html generic_func.

(** The client sends requests to [url]. *)
Definition accepted (net : network) (url : string) : Prop :=
  refuses net url = None.

(** What the network answers to [q] in world [w]. *)
Definition answer (net : network)
           (w : world) (q : request) : response :=
  answers net (map x_request (w_log w)) q.

(** The world once session [sid] has exchanged [q] for [r]. *)
Definition after (net : network) (w : world) (sid : nat) (q : request) (r : response)
  : world :=
  mkWorld (w_log w ++ [mkExchange sid q r])
          (update_jar (w_jars w) sid (store net (jar_of w sid) q r)).

(** The world once a new session has been opened. *)
Definition opened (w : world) : world :=
  mkWorld (w_log w) (w_jars w ++ [[]]).

(** The exchanges a run added to the log. *)
Definition new_log (w w' : world) : list exchange :=
  skipn (length (w_log w)) (w_log w').

(** The GET and the POST a session with jar [jar] sends to [url]. *)
Definition get_request (net : network) (url : string) (params : dict) (jar : cookies)
  : request :=
  mkRequest GET url params [] HEADERS (cookie_header net jar url).

Definition post_request (net : network) (url : string) (data : dict) (jar : cookies)
  : request :=
  mkRequest POST url [] data HEADERS (cookie_header net jar url).

(** The form data of the credentials POST of the EduConnect relay. *)
Definition credentials (username password : value) : dict :=
  [("j_username", username); ("j_password", password); ("_eventId_proceed", VStr "")].

Definition SAMLResponse_input (doc : soup) : option node :=
  Html.find "input" [("name", "SAMLResponse")] doc.

Definition RelayState_input (doc : soup) : option node :=
  Html.find "input" [("name", "RelayState")] doc.

Definition SAMLRequest_input (doc : soup) : option node :=
  Html.find "input" [("name", "SAMLRequest")] doc.

(** The form of a page, as the procedures look it up without a filter. *)
Definition first_form (doc : soup) : option node := Html.find "form" [] doc.

(** A readable view of a log: method, URL, query parameters, form data. *)
Definition requests_of (w : world) : list (method * string * dict * dict) :=
  map (fun x => (q_method (x_request x), q_url (x_request x),
                 q_params (x_request x), q_data (x_request x)))
      (w_log w).

(** The procedures of the module. *)
Inductive procedure : Type :=
| EduConnect | CasEdu | Cas | OpenEntNgEdu | OpenEntNg | Wayf | OzeEnt | SimpleAuth.

Record arguments : Type := mkArguments {
  a_session : nat;
  a_username : string;
  a_password : string;
  a_target : string;
  a_entityID : string;
  a_returnX : string;
  a_form_attr : list (string * string)
}.

(** The world a call leaves behind, in the module as the file has it:
    [educonnect] and [open_ent_ng] are not bound. *)
Definition run (net : network)
           (p : procedure) (a : arguments) (w : world) : world :=
  match p with
  | EduConnect =>
      snd (_educonnect net (VSession (a_session a)) (VStr (a_username a))
                       (VStr (a_password a)) (VStr (a_target a)) w)
  | CasEdu => snd (_cas_edu net None (a_username a) (a_password a) (a_target a) w)
  | Cas => snd (_cas net (a_username a) (a_password a) (a_target a) w)
  | OpenEntNgEdu =>
      snd (_open_ent_ng_edu net None None (a_username a) (a_password a) (a_target a) w)
  | OpenEntNg => snd (_open_ent_ng net (a_username a) (a_password a) (a_target a) w)
  | Wayf =>
      snd (_wayf net (a_username a) (a_password a) (a_target a)
                 (a_entityID a) (a_returnX a) w)
  | OzeEnt => snd (_oze_ent net (a_username a) (a_password a) (a_target a) w)
  | SimpleAuth =>
      snd (_simple_auth net (a_username a) (a_password a) (a_target a)
                        (a_form_attr a) w)
  end.

(** In some call, the procedure sends a POST to the [action] of a form of
    a page it received earlier in that call, where that [action] is not
    the URL the page was received at. *)
Definition posts_to_form_action (p : procedure) : Prop :=
  exists net a w before x1 between x2 rest form action,
    new_log w (run net p a w) = (before ++ x1 :: between ++ x2 :: rest)%list
    /\ In form (Html.descendants (r_text (x_response x1)))
    /\ Html.matches "form" [] form = true
    /\ Html.get form "action" = Some action
    /\ is_post x2 = true
    /\ q_url (x_request x2) = action
    /\ action <> r_url (x_response x1).

(** "Only the EduConnect relay posts to a form's action URL." *)
Definition only_relay_posts_to_form_action : Prop :=
  forall p, posts_to_form_action p -> p = EduConnect.

(** A log of at most one fetch and one POST back to where the fetch ended. *)
Definition fetch_then_post_back (l : list exchange) : Prop :=
  l = []
  \/ (exists x1, l = [x1])
  \/ (exists x1 x2, l = [x1; x2] /\ q_url (x_request x2) = r_url (x_response x1)).

(** The attribute [key] of a looked-up element; [None] when the element
    or the attribute is absent. *)
Definition field_value (o : option node) (key : string) : option string :=
  match o with
  | Some n => Html.get n key
  | None => None
  end.

(** The looked-up form is absent, or one of its inputs has no name. *)
Definition unusable_form (o : option node) : Prop :=
  match o with
  | None => True
  | Some form => exists i, In i (Html.findAll "input" form) /\ Html.get i "name" = None
  end.

(** A page that carries a [SAMLResponse] input but not all of what the
    relay reads next. *)
Definition broken_assertion_page (doc : soup) : Prop :=
  SAMLResponse_input doc <> None
  /\ (field_value (SAMLResponse_input doc) "value" = None
      \/ (RelayState_input doc <> None
          /\ field_value (RelayState_input doc) "value" = None)
      \/ field_value (first_form doc) "action" = None).

(** A page that lacks one of the three things CAS+EduConnect reads. *)
Definition broken_request_page (doc : soup) : Prop :=
  field_value (RelayState_input doc) "value" = None
  \/ field_value (SAMLRequest_input doc) "value" = None
  \/ field_value (first_form doc) "action" = None.

(** The inputs a form-based procedure copies. *)
Definition inputs_of (form : node) : list node := Html.findAll "input" form.

(** The form data of the posts a run added to the log. *)
Definition submitted (w w' : world) : list dict :=
  map (fun x => q_data (x_request x)) (filter is_post (new_log w w')).

(** The payload holds the name and value of every hidden input of the
    form (a missing value is [None]); names taken by the credentials apart. *)
Definition carries_every_hidden_input (form : node) (payload : dict) : Prop :=
  forall (i : node) (n : string),
    In i (inputs_of form) ->
    Html.get i "type" = Some "hidden" ->
    Html.get i "name" = Some n ->
    n <> "username" -> n <> "password" ->
    dict_get payload n = Some (of_option (Html.get i "value")).

(** The payload holds the name and value of every input that is the last
    of the form to bear its name; names taken by the credentials apart. *)
Definition carries_last_of_each_name (form : node) (payload : dict) : Prop :=
  forall (before after : list node) (i : node) (n : string),
    inputs_of form = (before ++ i :: after)%list ->
    Html.get i "name" = Some n ->
    (forall j, In j after -> Html.get j "name" <> Some n) ->
    n <> "username" -> n <> "password" ->
    dict_get payload n = Some (of_option (Html.get i "value")).

Definition overlaid (username password : string) (payload : dict) : Prop :=
  dict_get payload "username" = Some (VStr username)
  /\ dict_get payload "password" = Some (VStr password).

Definition nothing_extraneous (form : node) (payload : dict) : Prop :=
  forall k, In k (dict_keys payload) ->
    k = "username" \/ k = "password"
    \/ exists i, In i (inputs_of form) /\ Html.get i "name" = Some k.

(** The page a form-based procedure fetches first. *)
Definition login_page (net : network)
           (url : string) (w : world) : response :=
  answer net (opened w) (get_request net url [] []).

(** How a form-based procedure ends once the page is fetched: the failure
    of the payload construction, or one POST of the payload to the URL
    the fetch ended on, unless the client refuses that URL. *)
Definition form_outcome (net : network)
           (sid : nat) (r1 : response) (w1 : world) (o : outcome dict)
  : outcome cookiejar * world :=
  match o with
  | Raise e => (Raise e, w1)
  | Return payload =>
      match refuses net (r_url r1) with
      | Some e => (Raise e, w1)
      | None =>
          let q2 := post_request net (r_url r1) payload (jar_of w1 sid) in
          (Return (CookiesOf sid), after net w1 sid q2 (answer net w1 q2))
      end
  end.

(** The world once the login page has been fetched by a new session. *)
Definition fetched (net : network)
           (url : string) (w : world) : world :=
  after net (opened w) (length (w_jars w)) (get_request net url [] []) (login_page net url w).

(** A form-based procedure either stops at the check of its URL, or when
    the client refuses the URL, or ends as [form_outcome] says. *)
Definition ends_as_form_procedure (net : network)
           (url : string) (w : world) (r : outcome cookiejar * world) : Prop :=
  snd r = w
  \/ snd r = opened w
  \/ exists o, r = form_outcome net (length (w_jars w)) (login_page net url w)
                                (fetched net url w) o.

(** The user name Oze submits. *)
Definition oze_username (domain username : string) : string :=
  if negb (Str.contains domain username) then username ++ "@" ++ domain
  else username.

(** Plain CAS, Oze and the simple-form procedure send every POST to the
    URL on which the fetch of the login page ended. *)
Definition form_posts_go_to_fetched_url : Prop :=
  forall (net : network)
         (username password url : string) (form_attr : list (string * string))
         (w : world),
    (forall x,
        In x (filter is_post (new_log w (snd (_cas net username password url w)))) ->
        q_url (x_request x) = r_url (login_page net url w))
    /\ (forall x,
           In x (filter is_post (new_log w (snd (_oze_ent net username password url w)))) ->
           q_url (x_request x) = r_url (login_page net url w))
    /\ (forall x,
           In x (filter is_post
                   (new_log w (snd (_simple_auth net username password url form_attr w)))) ->
           q_url (x_request x) = r_url (login_page net url w)).

(** The sentence on the targets of the posts, as it reads. *)
Definition post_targets_claim : Prop :=
  form_posts_go_to_fetched_url /\ only_relay_posts_to_form_action.

(** The sentence on the direct Open-ENT-NG procedure, read at one call:
    with a non-empty URL, exactly one POST of the credentials to that URL,
    and the jar of the session. *)
Definition direct_post_claim (net : network)
           (username password url : string) (w : world) : Prop :=
  url <> "" ->
  exists x,
    new_log w (snd (_open_ent_ng net username password url w)) = [x]
    /\ is_post x = true
    /\ q_url (x_request x) = url
    /\ q_data (x_request x) = [("email", VStr username); ("password", VStr password)]
    /\ fst (_open_ent_ng net username password url w)
       = Return (CookiesOf (length (w_jars w))).

(** A form of the page holds the node. *)
Definition form_holding (doc : soup) (i form : node) : Prop :=
  In form (Html.descendants doc)
  /\ Html.matches "form" [] form = true
  /\ In i (Html.descendants (children_of form)).

(** The sentence on the relay, read at one call: when the page that
    answers the credentials has an input [SAMLResponse] (with its value) in
    a form (with its action), exactly one more POST follows, to that
    action, with that value. *)
Definition relay_claim (net : network) (sid : nat)
           (username password : value) (url : string) (w : world) : Prop :=
  url <> "" ->
  let q1 := post_request net url (credentials username password) (jar_of w sid) in
  let doc := r_text (answer net w q1) in
  forall i form v action,
    SAMLResponse_input doc = Some i ->
    Html.get i "value" = Some v ->
    form_holding doc i form ->
    Html.get form "action" = Some action ->
    exists x1 x2,
      new_log w (snd (_educonnect net (VSession sid) username password (VStr url) w))
        = [x1; x2]
      /\ is_post x2 = true
      /\ q_url (x_request x2) = action
      /\ dict_get (q_data (x_request x2)) "SAMLResponse" = Some (VStr v).

(** The sentence on the payload of plain CAS, read at one call. *)
Definition cas_payload_claim (net : network)
           (username password url : string) (w : world) : Prop :=
  forall form,
    Html.find "form" [("class", "cas__login-form")] (r_text (login_page net url w))
      = Some form ->
    exists payload,
      submitted w (snd (_cas net username password url w)) = [payload]
      /\ carries_every_hidden_input form payload
      /\ overlaid username password payload
      /\ nothing_extraneous form payload.

End Spec.

(** ** Vocabulary of the conduct of a call *)

Module Conduct.
Import Py Http Html generic_func Spec.

(** [trace net sid n w w']: from world [w], session [sid] made [n] requests,
    each with the fixed headers and the cookies its jar attached at that
    time, each answered by the network; [w'] is the world they leave. *)
Inductive trace (net : network) (sid : nat)
  : nat -> world -> world -> Prop :=
| trace_done (w : world) : trace net sid 0 w w
| trace_send (n : nat) (w w' : world) (q : request) :
    trace net sid n w w' ->
    q_headers q = HEADERS ->
    q_cookies q = cookie_header net (jar_of w' sid) (q_url q) ->
    trace net sid (S n) w (after net w' sid q (answer net w' q)).

(** At most two requests by session [sid] lead from [w] to [w']. *)
Definition within_two (net : network) (sid : nat)
           (w w' : world) : Prop :=
  exists n, n <= 2 /\ trace net sid n w w'.

(** The jar of a session that held [jar] and then went through the
    exchanges [l], as the client's policy keeps it. *)
Definition gathered (net : network) (jar : cookies) (l : list exchange) : cookies :=
  fold_left (fun j x => store net j (x_request x) (x_response x)) l jar.

(** Each request of [l] carries what the client attaches, for its URL, from
    the jar the exchanges before it have left. *)
Fixpoint chained (net : network) (jar : cookies) (l : list exchange) : Prop :=
  match l with
  | [] => True
  | x :: l' =>
      q_cookies (x_request x) = cookie_header net jar (q_url (x_request x))
      /\ chained net (store net jar (x_request x) (x_response x)) l'
  end.

(** The session a dynamically typed receiver stands for, if it is one. *)
Definition session_of (v : value) : option nat :=
  match v with VSession sid => Some sid | _ => None end.

(** The arguments of the discovery request of WAYF. *)
Definition wayf_params (domain entityID returnX : string) : dict :=
  [("entityID", VStr (if String.eqb entityID "" then domain ++ "/shibboleth" else entityID));
   ("returnX", VStr (if String.eqb returnX "" then domain ++ "/Shibboleth.sso/Login"
                     else returnX));
   ("returnIDParam", VStr "entityID");
   ("action", VStr "selection");
   ("origin", VStr "https://_educonnect.education.gouv.fr/idp")].

End Conduct.

(** ** Properties *)

Import Py Http Html generic_func Spec Conduct.

Section BasicFacts.

Variable net : network.

Lemma eqb_empty_false (s : string) : s <> "" -> String.eqb s "" = false.
Proof. intros H. now apply String.eqb_neq. Qed.

Lemma truthy_str (s : string) : s <> "" -> negb (truthy (VStr s)) = false.
Proof. intros H. simpl. now rewrite (eqb_empty_false _ H). Qed.

Lemma jar_of_opened (w : world) : jar_of (opened w) (length (w_jars w)) = [].
Proof. unfold jar_of, opened. simpl. now rewrite nth_middle. Qed.

Lemma Session_run (w : world) :
  Session w = (Return (length (w_jars w)), opened w).
Proof. reflexivity. Qed.

Lemma send_run sid m url params data headers (w : world) :
  send net sid m url params data headers w =
    match refuses net url with
    | Some e => (Raise e, w)
    | None =>
        let q := mkRequest m url params data headers
                           (cookie_header net (jar_of w sid) url) in
        (Return (answer net w q), after net w sid q (answer net w q))
    end.
Proof. reflexivity. Qed.

Lemma post_dyn_run (sid : nat) (url : string) (data : dict) (w : world)
      (A : Type) (k : response -> M A) :
  bind (post_dyn net (VSession sid) (VStr url) HEADERS data) k w
  = match refuses net url with
    | Some e => (Raise e, w)
    | None =>
        k (answer net w (post_request net url data (jar_of w sid)))
          (after net w sid (post_request net url data (jar_of w sid))
                 (answer net w (post_request net url data (jar_of w sid))))
    end.
Proof.
  unfold bind, post_dyn, session_post. rewrite send_run.
  now destruct (refuses net url).
Qed.

Lemma bind_Session (A : Type) (k : nat -> M A) (w : world) :
  bind Session k w = k (length (w_jars w)) (opened w).
Proof. reflexivity. Qed.

Lemma bind_get (sid : nat) (url : string) (params : dict) (w : world)
      (A : Type) (k : response -> M A) :
  bind (session_get net sid url params HEADERS) k w
  = match refuses net url with
    | Some e => (Raise e, w)
    | None =>
        k (answer net w (get_request net url params (jar_of w sid)))
          (after net w sid (get_request net url params (jar_of w sid))
                 (answer net w (get_request net url params (jar_of w sid))))
    end.
Proof.
  unfold bind, session_get. rewrite send_run. now destruct (refuses net url).
Qed.

Lemma bind_post (sid : nat) (url : string) (data : dict) (w : world)
      (A : Type) (k : response -> M A) :
  bind (session_post net sid url HEADERS data) k w
  = match refuses net url with
    | Some e => (Raise e, w)
    | None =>
        k (answer net w (post_request net url data (jar_of w sid)))
          (after net w sid (post_request net url data (jar_of w sid))
                 (answer net w (post_request net url data (jar_of w sid))))
    end.
Proof.
  unfold bind, session_post. rewrite send_run. now destruct (refuses net url).
Qed.

Lemma bind_ret_run (A B : Type) (a : A) (k : A -> M B) (w : world) :
  bind (ret a) k w = k a w.
Proof. reflexivity. Qed.

Lemma bind_lift (A B : Type) (o : outcome A) (k : A -> M B) (w : world) :
  bind (lift o) k w
  = match o with Return a => k a w | Raise e => (Raise e, w) end.
Proof. unfold bind, lift. now destruct o. Qed.

Lemma bind_load (F A : Type) (name : string) (binding : option F)
      (k : F -> M A) (w : world) :
  bind (load_global name binding) k w
  = match binding with Some f => k f w | None => (Raise (NameError name), w) end.
Proof. now destruct binding. Qed.

Lemma open_ent_ng_run (username password url : string) (w : world) :
  url <> "" ->
  _open_ent_ng net username password url w
  = match refuses net url with
    | Some e => (Raise e, opened w)
    | None =>
        let q := post_request net url
                              [("email", VStr username); ("password", VStr password)] [] in
        (Return (CookiesOf (length (w_jars w))),
         after net (opened w) (length (w_jars w)) q (answer net w q))
    end.
Proof.
  intros Hurl. unfold _open_ent_ng. rewrite (eqb_empty_false _ Hurl).
  rewrite bind_Session, bind_post, jar_of_opened.
  now destruct (refuses net url).
Qed.

Lemma new_log_app (w w' : world) (l : list exchange) :
  w_log w' = (w_log w ++ l)%list -> new_log w w' = l.
Proof.
  intros H. unfold new_log. rewrite H.
  rewrite skipn_app, skipn_all, Nat.sub_diag. reflexivity.
Qed.

End BasicFacts.

(** C4: every procedure, called with an empty URL (or domain), raises
    [ENTLoginError] and leaves the world as it found it: no session is
    opened and no request is sent.  This holds whatever the other arguments
    are and whatever the two free names are bound to. *)
Theorem C4_empty_target_raises_before_any_request
        (net : network)
        (educonnect : option (value -> value -> value -> value -> M value))
        (open_ent_ng : option (string -> string -> string -> M cookiejar))
        (session user pass : value) (username password entityID returnX : string)
        (form_attr : list (string * string)) (w : world) :
  _educonnect net session user pass (VStr "") w
    = (Raise (ENTLoginError "Missing url attribute"), w)
  /\ _cas_edu net educonnect username password "" w
    = (Raise (ENTLoginError "Missing url attribute"), w)
  /\ _cas net username password "" w
    = (Raise (ENTLoginError "Missing url attribute"), w)
  /\ _open_ent_ng_edu net educonnect open_ent_ng username password "" w
    = (Raise (ENTLoginError "Missing domain attribute"), w)
  /\ _open_ent_ng net username password "" w
    = (Raise (ENTLoginError "Missing url attribute"), w)
  /\ _wayf net username password "" entityID returnX w
    = (Raise (ENTLoginError "Missing domain attribute"), w)
  /\ _oze_ent net username password "" w
    = (Raise (ENTLoginError "Missing url attribute"), w)
  /\ _simple_auth net username password "" form_attr w
    = (Raise (ENTLoginError "Missing url attribute"), w).
Proof. repeat split. Qed.

(** C9, as the sentence reads, fails on a URL without scheme: the client
    refuses it, no POST is sent and no jar is returned. *)
Lemma C9_schemeless_url_counterexample :
  ~ direct_post_claim (Demo.static false (Demo.plain "Error"))
                      "u" "p" "ent.example/auth/login" empty_world.
Proof.
  intros H. destruct (H ltac:(discriminate)) as (x & Hlog & _).
  discriminate Hlog.
Qed.

(** C9, amended: with a URL the client sends to, the direct Open-ENT-NG
    procedure opens a session, sends one POST to that URL whose form data
    is [email -> username, password -> password], and returns the jar of
    that session; the answer is not looked at.  With a non-empty URL the
    client refuses, what the client raises is raised and nothing is sent. *)
Theorem C9_open_ent_ng_single_post
        (net : network)
        (username password url : string) (w : world) :
  url <> "" ->
  let sid := length (w_jars w) in
  let q := post_request net url [("email", VStr username); ("password", VStr password)] [] in
  (accepted net url ->
     _open_ent_ng net username password url w
       = (Return (CookiesOf sid), after net (opened w) sid q (answer net w q))
     /\ new_log w (after net (opened w) sid q (answer net w q))
       = [mkExchange sid q (answer net w q)])
  /\ (forall e, refuses net url = Some e ->
        _open_ent_ng net username password url w = (Raise e, opened w)
        /\ new_log w (opened w) = []).
Proof.
  intros Hurl sid q. split.
  - intros Hacc. split.
    + rewrite (open_ent_ng_run net _ _ _ _ Hurl), Hacc. reflexivity.
    + apply new_log_app. reflexivity.
  - intros e He. split.
    + rewrite (open_ent_ng_run net _ _ _ _ Hurl), He. reflexivity.
    + apply new_log_app. simpl. now rewrite app_nil_r.
Qed.

(** The direct procedure against a server that answers with an error page. *)
Lemma C9_open_ent_ng_single_post_witness :
  "https://ent.example/auth/login" <> ""
  /\ accepted (Demo.static false (Demo.plain "Error")) "https://ent.example/auth/login"
  /\ fst (_open_ent_ng (Demo.static false (Demo.plain "Error")) "u" "p"
                       "https://ent.example/auth/login" empty_world)
     = Return (CookiesOf 0).
Proof.
  split; [discriminate | split; [reflexivity |]].
  rewrite (proj1 (proj1 (C9_open_ent_ng_single_post
                           (Demo.static false (Demo.plain "Error")) "u" "p"
                           "https://ent.example/auth/login" empty_world
                           ltac:(discriminate))
                        eq_refl)).
  reflexivity.
Defined.

(** C5, as the sentence reads, fails twice.  When the form's action is
    relative the client refuses it and no POST follows the credentials.
    When the assertion lies in the second form of the page, the POST goes
    to the action of the first. *)
Lemma C5_relative_action_counterexample :
  ~ relay_claim (Demo.static true Demo.saml_form_relative) 0 (VStr "u") (VStr "p")
                "https://idp.example/login" (opened empty_world)
  /\ ~ relay_claim (Demo.static true Demo.saml_second_form) 0 (VStr "u") (VStr "p")
                   "https://idp.example/login" (opened empty_world).
Proof.
  split; intros H.
  - destruct (H ltac:(discriminate)
                (Demo.hidden "SAMLResponse" "PHNhbWw+")
                (Tag "form" [("action", "/acs"); ("method", "post")]
                     [Demo.hidden "RelayState" "cookie:42";
                      Demo.hidden "SAMLResponse" "PHNhbWw+"])
                "PHNhbWw+" "/acs" eq_refl eq_refl)
      as (x1 & x2 & Hlog & _); [| reflexivity | discriminate Hlog].
    split; [vm_compute; tauto | split; [reflexivity | vm_compute; tauto]].
  - destruct (H ltac:(discriminate)
                (Demo.hidden "SAMLResponse" "PHNhbWw+")
                (Tag "form" [("action", "https://sp.example/acs"); ("method", "post")]
                     [Demo.hidden "SAMLResponse" "PHNhbWw+"])
                "PHNhbWw+" "https://sp.example/acs" eq_refl eq_refl)
      as (x1 & x2 & Hlog & _ & Hurl & _); [| reflexivity |].
    + split; [vm_compute; tauto | split; [reflexivity | vm_compute; tauto]].
    + vm_compute in Hlog. injection Hlog as _ <-. discriminate Hurl.
Qed.

(** C5, amended: the EduConnect relay, called on a session with a URL the
    client sends to, first posts the credentials.  If the page that comes
    back has no input named [SAMLResponse], nothing more is sent and [None]
    is returned.  If it has one, the relay sends exactly one more POST, to
    the [action] of the first form of the page (whether or not the input
    lies in it), carrying the value of that input, and the value of the
    input named [RelayState] when the page has one, and returns the answer
    to that POST; this when the client sends to that action.  When the
    client refuses it, what the client raises is raised and no POST
    follows. *)
Theorem C5_educonnect_relay
        (net : network)
        (sid : nat) (username password : value) (url : string) (w : world) :
  url <> "" ->
  accepted net url ->
  let q1 := post_request net url (credentials username password) (jar_of w sid) in
  let r1 := answer net w q1 in
  let w1 := after net w sid q1 r1 in
  (SAMLResponse_input (r_text r1) = None ->
     _educonnect net (VSession sid) username password (VStr url) w = (Return VNone, w1)
     /\ new_log w w1 = [mkExchange sid q1 r1])
  /\
  (forall (i f : node) (v a : string) (data : dict),
     SAMLResponse_input (r_text r1) = Some i -> Html.get i "value" = Some v ->
     first_form (r_text r1) = Some f -> Html.get f "action" = Some a ->
     (RelayState_input (r_text r1) = None /\ data = [("SAMLResponse", VStr v)]
      \/ exists t rs, RelayState_input (r_text r1) = Some t
                      /\ Html.get t "value" = Some rs
                      /\ data = [("SAMLResponse", VStr v); ("RelayState", VStr rs)]) ->
     (accepted net a ->
        let q2 := post_request net a data (jar_of w1 sid) in
        let r2 := answer net w1 q2 in
        _educonnect net (VSession sid) username password (VStr url) w
          = (Return (VResponse r2), after net w1 sid q2 r2)
        /\ new_log w (after net w1 sid q2 r2)
           = [mkExchange sid q1 r1; mkExchange sid q2 r2])
     /\ (forall e, refuses net a = Some e ->
           _educonnect net (VSession sid) username password (VStr url) w = (Raise e, w1)
           /\ new_log w w1 = [mkExchange sid q1 r1])).
Proof.
  intros Hurl Hacc q1 r1 w1.
  assert (Hrun : forall k : response -> M value,
             bind (post_dyn net (VSession sid) (VStr url) HEADERS
                            (credentials username password)) k w = k r1 w1).
  { intros k. rewrite post_dyn_run, Hacc. reflexivity. }
  assert (Hlog1 : new_log w w1 = [mkExchange sid q1 r1])
    by (apply new_log_app; reflexivity).
  split.
  - intros Hnone. split; [| exact Hlog1].
    unfold _educonnect. rewrite (truthy_str _ Hurl).
    fold (credentials username password). rewrite Hrun.
    unfold SAMLResponse_input in Hnone. rewrite Hnone. reflexivity.
  - intros i f v a data Hi Hv Hf Ha Hrelay.
    assert (Htail : _educonnect net (VSession sid) username password (VStr url) w
                    = bind (post_dyn net (VSession sid) (VStr a) HEADERS data)
                           (fun response => ret (VResponse response)) w1).
    { unfold _educonnect. rewrite (truthy_str _ Hurl).
      fold (credentials username password). rewrite Hrun.
      unfold SAMLResponse_input, RelayState_input, first_form in *.
      rewrite Hi. rewrite bind_lift. unfold getitem at 1. rewrite Hv.
      destruct Hrelay as [[Hnone ->] | (t & rs & Ht & Hrs & ->)].
      - rewrite Hnone. rewrite bind_ret_run, bind_lift.
        unfold getitem. now rewrite Hf, Ha.
      - rewrite Ht. unfold bind at 1. rewrite bind_lift.
        unfold getitem at 1. rewrite Hrs. unfold ret at 1.
        rewrite bind_lift. unfold getitem. now rewrite Hf, Ha. }
    rewrite Htail, post_dyn_run. split.
    + intros Hacc2 q2 r2. rewrite Hacc2. split; [reflexivity |].
      apply new_log_app. unfold after. simpl. now rewrite <- app_assoc.
    + intros e He. rewrite He. now split.
Qed.

(** The relay against a page without assertion, and against a page whose
    form carries [SAMLResponse] and [RelayState]. *)
Lemma C5_educonnect_relay_witness :
  "https://idp.example/login" <> ""
  /\ accepted (Demo.static true Demo.saml_form) "https://idp.example/login"
  /\ fst (_educonnect (Demo.static true (Demo.plain "Accueil")) (VSession 0)
                      (VStr "u") (VStr "p") (VStr "https://idp.example/login")
                      (opened empty_world)) = Return VNone
  /\ map (fun x => (q_url (x_request x), q_data (x_request x)))
         (w_log (snd (_educonnect (Demo.static true Demo.saml_form) (VSession 0)
                                  (VStr "u") (VStr "p") (VStr "https://idp.example/login")
                                  (opened empty_world))))
     = [("https://idp.example/login", credentials (VStr "u") (VStr "p"));
        ("https://sp.example/acs",
         [("SAMLResponse", VStr "PHNhbWw+"); ("RelayState", VStr "cookie:42")])].
Proof.
  split; [discriminate | split; [reflexivity | split]].
  - pose proof (proj1 (C5_educonnect_relay
                         (Demo.static true (Demo.plain "Accueil")) 0 (VStr "u") (VStr "p")
                         "https://idp.example/login" (opened empty_world)
                         ltac:(discriminate) eq_refl)) as H.
    cbv zeta in H. rewrite (proj1 (H eq_refl)). reflexivity.
  - pose proof (proj2 (C5_educonnect_relay
                         (Demo.static true Demo.saml_form) 0 (VStr "u") (VStr "p")
                         "https://idp.example/login" (opened empty_world)
                         ltac:(discriminate) eq_refl)) as H.
    cbv zeta in H.
    edestruct H as [Hsent _];
      [reflexivity | reflexivity | reflexivity | reflexivity
       | right; do 2 eexists; repeat split; reflexivity |].
    destruct (Hsent eq_refl) as [Hrun _]. rewrite Hrun. reflexivity.
Defined.

(** *** Dictionaries and the input loop *)

Section Dictionaries.

Lemma dict_get_set_same (d : dict) (k : string) (v : value) :
  dict_get (dict_set d k v) k = Some v.
Proof.
  induction d as [| [k' v'] d IH]; simpl.
  - now rewrite String.eqb_refl.
  - destruct (String.eqb k' k) eqn:E; simpl.
    + now rewrite String.eqb_refl.
    + now rewrite E.
Qed.

Lemma dict_get_set_other (d : dict) (k k' : string) (v : value) :
  k <> k' -> dict_get (dict_set d k v) k' = dict_get d k'.
Proof.
  intros Hne. induction d as [| [k0 v0] d IH]; simpl.
  - destruct (String.eqb_spec k k'); [contradiction | reflexivity].
  - destruct (String.eqb_spec k0 k) as [-> | Hk]; simpl.
    + destruct (String.eqb_spec k k'); [contradiction | reflexivity].
    + destruct (String.eqb_spec k0 k'); [reflexivity | exact IH].
Qed.

Lemma dict_keys_set (d : dict) (k k' : string) (v : value) :
  In k' (dict_keys (dict_set d k v)) -> k' = k \/ In k' (dict_keys d).
Proof.
  induction d as [| [k0 v0] d IH]; simpl.
  - intros [H | []]. now left.
  - destruct (String.eqb_spec k0 k) as [-> | Hk]; simpl.
    + intros [H | H]; [now left | now right; right].
    + intros [H | H]; [now right; left |].
      destruct (IH H); [now left | now right; right].
Qed.

(** An input without a name stops the loop with [KeyError]. *)
Lemma collect_inputs_total (inputs : list node) :
  (forall i, In i inputs -> Html.get i "name" <> None) ->
  forall d, exists p, collect_inputs inputs d = Return p.
Proof.
  induction inputs as [| i rest IH]; intros Hnamed d; simpl.
  - now exists d.
  - destruct (Html.get i "name") eqn:E.
    + apply IH. intros j Hj. apply Hnamed. now right.
    + exfalso. apply (Hnamed i); [now left | exact E].
Qed.

(** The last input of a name decides what the loop leaves under it. *)
Lemma collect_inputs_last (before after : list node) (i : node) (n : string) :
  Html.get i "name" = Some n ->
  (forall j, In j after -> Html.get j "name" <> Some n) ->
  forall d p, collect_inputs (before ++ i :: after) d = Return p ->
              dict_get p n = Some (of_option (Html.get i "value")).
Proof.
  intros Hn Hlast.
  assert (Hafter : forall d p, collect_inputs after d = Return p ->
                               dict_get p n = dict_get d n).
  { clear Hn. induction after as [| j rest IH]; intros d p; simpl.
    - now intros [= ->].
    - destruct (Html.get j "name") as [m |] eqn:Em; [| discriminate].
      intros H. rewrite (IH (fun x Hx => Hlast x (or_intror Hx)) _ _ H).
      apply dict_get_set_other. intros ->. apply (Hlast j); [now left | exact Em]. }
  induction before as [| b rest IH]; intros d p; simpl.
  - rewrite Hn. intros H. rewrite (Hafter _ _ H). apply dict_get_set_same.
  - destruct (Html.get b "name"); [apply IH | discriminate].
Qed.

Lemma collect_inputs_keys (inputs : list node) :
  forall d p k, collect_inputs inputs d = Return p ->
    In k (dict_keys p) ->
    In k (dict_keys d) \/ exists i, In i inputs /\ Html.get i "name" = Some k.
Proof.
  induction inputs as [| i rest IH]; intros d p k; simpl.
  - intros [= ->] H. now left.
  - destruct (Html.get i "name") as [m |] eqn:Em; [| discriminate].
    intros H Hk. destruct (IH _ _ _ H Hk) as [Hd | (j & Hj & Hjn)].
    + destruct (dict_keys_set _ _ _ _ Hd) as [-> | Hd'].
      * right. exists i. split; [now left | exact Em].
      * now left.
    + right. exists j. split; [now right | exact Hjn].
Qed.

(** What [form_payload] builds from a form whose inputs are all named. *)
Lemma form_payload_spec (form : node) (username password : string) :
  (forall i, In i (inputs_of form) -> Html.get i "name" <> None) ->
  exists payload,
    form_payload (Some form) username password = Return payload
    /\ carries_last_of_each_name form payload
    /\ overlaid username password payload
    /\ nothing_extraneous form payload.
Proof.
  intros Hnamed. unfold form_payload.
  destruct (collect_inputs_total _ Hnamed []) as [p Hp].
  fold (inputs_of form). rewrite Hp. eexists. split; [reflexivity |].
  split; [| split].
  - intros before after i n Hsplit Hn Hlast Hu Hpw.
    rewrite dict_get_set_other by congruence.
    rewrite dict_get_set_other by congruence.
    rewrite Hsplit in Hp. exact (collect_inputs_last _ _ _ _ Hn Hlast _ _ Hp).
  - split.
    + rewrite dict_get_set_other by discriminate. apply dict_get_set_same.
    + apply dict_get_set_same.
  - intros k Hk.
    destruct (dict_keys_set _ _ _ _ Hk) as [-> | Hk1]; [now right; left |].
    destruct (dict_keys_set _ _ _ _ Hk1) as [-> | Hk2]; [now left |].
    destruct (collect_inputs_keys _ _ _ _ Hp Hk2) as [[] | Hin].
    right. right. exact Hin.
Qed.

End Dictionaries.

(** *** The form-based procedures *)

Section FormProcedures.

Variable net : network.

Lemma form_tail_run (sid : nat) (r1 : response) (form : option node)
      (username password : string) (w1 : world) :
  bind (lift (form_payload form username password))
       (fun payload =>
          bind (session_post net sid (r_url r1) HEADERS payload)
               (fun _ => ret (CookiesOf sid))) w1
  = form_outcome net sid r1 w1 (form_payload form username password).
Proof.
  rewrite bind_lift. unfold form_outcome.
  destruct (form_payload form username password); [| reflexivity].
  rewrite bind_post. now destruct (refuses net (r_url r1)).
Qed.

Lemma fetch_run (url : string) (w : world) (A : Type) (k : response -> M A) :
  bind (session_get net (length (w_jars w)) url [] HEADERS) k (opened w)
  = match refuses net url with
    | Some e => (Raise e, opened w)
    | None => k (login_page net url w) (fetched net url w)
    end.
Proof. rewrite bind_get, jar_of_opened. reflexivity. Qed.

Lemma cas_run (username password url : string) (w : world) :
  url <> "" ->
  _cas net username password url w
  = match refuses net url with
    | Some e => (Raise e, opened w)
    | None =>
        form_outcome net (length (w_jars w)) (login_page net url w) (fetched net url w)
          (form_payload
             (Html.find "form" [("class", "cas__login-form")]
                        (r_text (login_page net url w)))
             username password)
    end.
Proof.
  intros Hurl. unfold _cas. rewrite (eqb_empty_false _ Hurl).
  rewrite bind_Session, fetch_run.
  destruct (refuses net url); [reflexivity | apply form_tail_run].
Qed.

Lemma simple_auth_run (username password url : string)
      (form_attr : list (string * string)) (w : world) :
  url <> "" ->
  _simple_auth net username password url form_attr w
  = match refuses net url with
    | Some e => (Raise e, opened w)
    | None =>
        form_outcome net (length (w_jars w)) (login_page net url w) (fetched net url w)
          (form_payload
             (Html.find "form" form_attr (r_text (login_page net url w)))
             username password)
    end.
Proof.
  intros Hurl. unfold _simple_auth. rewrite (eqb_empty_false _ Hurl).
  rewrite bind_Session, fetch_run.
  destruct (refuses net url); [reflexivity | apply form_tail_run].
Qed.

Lemma oze_ent_run (username password url : string) (w : world) :
  url <> "" ->
  _oze_ent net username password url w
  = match refuses net url with
    | Some e => (Raise e, opened w)
    | None =>
        match Urllib.netloc url with
        | Raise e => (Raise e, fetched net url w)
        | Return domain =>
            form_outcome net (length (w_jars w)) (login_page net url w)
              (fetched net url w)
              (form_payload
                 (Html.find "form" [("id", "auth_form")] (r_text (login_page net url w)))
                 (oze_username domain username) password)
        end
    end.
Proof.
  intros Hurl. unfold _oze_ent. rewrite (eqb_empty_false _ Hurl).
  rewrite bind_Session, fetch_run.
  destruct (refuses net url); [reflexivity |].
  rewrite bind_lift.
  destruct (Urllib.netloc url) as [domain | e]; [| reflexivity].
  apply form_tail_run.
Qed.

(** A fetch followed by one POST: the payload of the POST is what was
    submitted. *)
Lemma submitted_form_outcome (sid : nat) (url : string) (w : world) (payload : dict) :
  accepted net (r_url (login_page net url w)) ->
  submitted w (snd (form_outcome net sid (login_page net url w) (fetched net url w)
                                 (Return payload))) = [payload].
Proof.
  intros Hacc. unfold submitted, form_outcome. rewrite Hacc. cbv zeta. unfold snd.
  erewrite new_log_app.
  2:{ unfold after, fetched, after. simpl. rewrite <- app_assoc. reflexivity. }
  reflexivity.
Qed.

End FormProcedures.

(** C7, as the sentence reads, fails on a form with two hidden inputs of
    one name: plain CAS submits [lt -> LT-2] only, so the pair of the first
    input is not in the payload. *)
Lemma C7_duplicate_names_counterexample :
  ~ cas_payload_claim (Demo.static true Demo.cas_form_dup)
                      "u" "p" "https://ent.example/login" empty_world.
Proof.
  intros H. destruct (H _ eq_refl) as (payload & Hsub & Hall & _).
  vm_compute in Hsub. injection Hsub as <-.
  specialize (Hall (Demo.hidden "lt" "LT-1") "lt").
  assert (Hin : In (Demo.hidden "lt" "LT-1")
                   (inputs_of (Tag "form" [("class", "cas__login-form"); ("action", "/cas/login")]
                                   [Demo.hidden "lt" "LT-1"; Demo.hidden "lt" "LT-2"]))).
  { now left. }
  specialize (Hall Hin eq_refl eq_refl ltac:(discriminate) ltac:(discriminate)).
  discriminate Hall.
Qed.

(** C7, amended: when the looked-up form is in the fetched page and each of
    its inputs has a name, plain CAS and the simple-form procedure submit
    one payload; it maps every input name to the value of the last input of
    that name (hidden or not, [None] without a value), [username] and
    [password] to the credentials whatever the form holds under these
    names, and has no other key.  The page is fetched and the payload
    submitted: the client sends to the URL and to the URL the fetch ended
    on. *)
Theorem C7_form_payload_last_input_wins
        (net : network)
        (username password url : string) (form_attr : list (string * string))
        (w : world) :
  url <> "" ->
  accepted net url ->
  accepted net (r_url (login_page net url w)) ->
  (forall form,
     Html.find "form" [("class", "cas__login-form")] (r_text (login_page net url w))
       = Some form ->
     (forall i, In i (inputs_of form) -> Html.get i "name" <> None) ->
     exists payload,
       fst (_cas net username password url w) = Return (CookiesOf (length (w_jars w)))
       /\ submitted w (snd (_cas net username password url w)) = [payload]
       /\ carries_last_of_each_name form payload
       /\ overlaid username password payload
       /\ nothing_extraneous form payload)
  /\
  (forall form,
     Html.find "form" form_attr (r_text (login_page net url w)) = Some form ->
     (forall i, In i (inputs_of form) -> Html.get i "name" <> None) ->
     exists payload,
       fst (_simple_auth net username password url form_attr w)
         = Return (CookiesOf (length (w_jars w)))
       /\ submitted w (snd (_simple_auth net username password url form_attr w)) = [payload]
       /\ carries_last_of_each_name form payload
       /\ overlaid username password payload
       /\ nothing_extraneous form payload).
Proof.
  intros Hurl Hacc Hback. split; intros form Hform Hnamed;
    destruct (form_payload_spec form username password Hnamed)
      as (payload & Hp & Hlast & Hover & Hextra);
    exists payload.
  - rewrite (cas_run net _ _ _ _ Hurl), Hacc, Hform, Hp.
    split; [unfold form_outcome; now rewrite Hback |].
    split; [now apply submitted_form_outcome | auto].
  - rewrite (simple_auth_run net _ _ _ _ _ Hurl), Hacc, Hform, Hp.
    split; [unfold form_outcome; now rewrite Hback |].
    split; [now apply submitted_form_outcome | auto].
Qed.

(** Plain CAS on a form of four distinct inputs, and the simple-form
    procedure on the form with two inputs named [lt]. *)
Lemma C7_form_payload_last_input_wins_witness :
  "https://ent.example/login" <> ""
  /\ submitted empty_world
       (snd (_cas (Demo.static true Demo.cas_form) "u" "p"
                  "https://ent.example/login" empty_world))
     = [[("lt", VStr "LT-1"); ("execution", VStr "e1s1");
         ("username", VStr "u"); ("password", VStr "p")]]
  /\ exists payload,
       submitted empty_world
         (snd (_simple_auth (Demo.static true Demo.cas_form_dup) "u" "p"
                            "https://ent.example/login" [] empty_world)) = [payload]
       /\ dict_get payload "lt" = Some (VStr "LT-2").
Proof.
  pose proof (C7_form_payload_last_input_wins
                (Demo.static true Demo.cas_form) "u" "p" "https://ent.example/login" []
                empty_world ltac:(discriminate) eq_refl eq_refl) as [Hcas _].
  pose proof (C7_form_payload_last_input_wins
                (Demo.static true Demo.cas_form_dup) "u" "p" "https://ent.example/login" []
                empty_world ltac:(discriminate) eq_refl eq_refl) as [_ Hsimple].
  split; [discriminate | split].
  - edestruct Hcas as (payload & _ & Hsub & _); [reflexivity | | reflexivity].
    intros i Hi. vm_compute in Hi.
    repeat (destruct Hi as [<- | Hi]; [discriminate |]). destruct Hi.
  - edestruct Hsimple as (payload & _ & Hsub & Hlast & _); [reflexivity | |].
    + intros i Hi. vm_compute in Hi.
      repeat (destruct Hi as [<- | Hi]; [discriminate |]). destruct Hi.
    + exists payload. split; [exact Hsub |].
      apply (Hlast [Demo.hidden "lt" "LT-1"] [] (Demo.hidden "lt" "LT-2") "lt");
        try reflexivity; try discriminate.
      intros j [].
Defined.

(** C6: Oze called with user name [alice] and URL
    [https://oze.example.com/login] submits [alice@oze.example.com] under
    [username]; a user name that already contains the network location of
    the URL is submitted as it is, and any other has [@] and that location
    appended.  The page is one that has the form [auth_form] with named
    inputs, and the client sends to the URL and to the URL the fetch ended
    on, so that a payload is submitted. *)
Theorem C6_oze_username_suffix
        (net : network) (password : string) (w : world) :
  (forall form,
     accepted net "https://oze.example.com/login" ->
     accepted net (r_url (login_page net "https://oze.example.com/login" w)) ->
     Html.find "form" [("id", "auth_form")]
               (r_text (login_page net "https://oze.example.com/login" w)) = Some form ->
     (forall i, In i (inputs_of form) -> Html.get i "name" <> None) ->
     exists payload,
       submitted w (snd (_oze_ent net "alice" password "https://oze.example.com/login" w))
         = [payload]
       /\ dict_get payload "username" = Some (VStr "alice@oze.example.com"))
  /\
  (forall (username url domain : string) form,
     url <> "" ->
     accepted net url ->
     accepted net (r_url (login_page net url w)) ->
     Urllib.netloc url = Return domain ->
     Html.find "form" [("id", "auth_form")] (r_text (login_page net url w)) = Some form ->
     (forall i, In i (inputs_of form) -> Html.get i "name" <> None) ->
     exists payload,
       submitted w (snd (_oze_ent net username password url w)) = [payload]
       /\ (Str.contains domain username = true ->
           dict_get payload "username" = Some (VStr username))
       /\ (Str.contains domain username = false ->
           dict_get payload "username" = Some (VStr (username ++ "@" ++ domain)))).
Proof.
  assert (Hgen : forall (username url domain : string) form,
             url <> "" ->
             accepted net url ->
             accepted net (r_url (login_page net url w)) ->
             Urllib.netloc url = Return domain ->
             Html.find "form" [("id", "auth_form")] (r_text (login_page net url w))
               = Some form ->
             (forall i, In i (inputs_of form) -> Html.get i "name" <> None) ->
             exists payload,
               submitted w (snd (_oze_ent net username password url w)) = [payload]
               /\ dict_get payload "username" = Some (VStr (oze_username domain username))).
  { intros username url domain form Hurl Hacc Hback Hloc Hform Hnamed.
    destruct (form_payload_spec form (oze_username domain username) password Hnamed)
      as (payload & Hp & _ & [Huser _] & _).
    exists payload. rewrite (oze_ent_run net _ _ _ _ Hurl), Hacc, Hloc, Hform, Hp.
    split; [now apply submitted_form_outcome | exact Huser]. }
  split.
  - intros form Hacc Hback Hform Hnamed.
    apply (Hgen "alice" "https://oze.example.com/login" "oze.example.com" form);
      [discriminate | exact Hacc | exact Hback | reflexivity | exact Hform | exact Hnamed].
  - intros username url domain form Hurl Hacc Hback Hloc Hform Hnamed.
    destruct (Hgen username url domain form Hurl Hacc Hback Hloc Hform Hnamed)
      as (payload & Hsub & Huser).
    exists payload. split; [exact Hsub |].
    unfold oze_username in Huser.
    split; intros Hc; rewrite Hc in Huser; exact Huser.
Qed.

(** Oze with [alice], and with a user name that already has the domain. *)
Lemma C6_oze_username_suffix_witness :
  (exists payload,
     submitted empty_world
       (snd (_oze_ent (Demo.static true Demo.oze_form) "alice" "s3cret"
                      "https://oze.example.com/login" empty_world)) = [payload]
     /\ dict_get payload "username" = Some (VStr "alice@oze.example.com"))
  /\
  (exists payload,
     submitted empty_world
       (snd (_oze_ent (Demo.static true Demo.oze_form) "bob@oze.example.com" "s3cret"
                      "https://oze.example.com/login" empty_world)) = [payload]
     /\ dict_get payload "username" = Some (VStr "bob@oze.example.com")).
Proof.
  assert (Hnamed : forall i,
             In i (inputs_of (Tag "form" [("id", "auth_form"); ("action", "/auth")]
                                  [Demo.hidden "csrf" "t0k3n";
                                   Tag "input" [("type", "text"); ("name", "username");
                                                ("value", "")] []])) ->
             Html.get i "name" <> None).
  { intros i Hi. vm_compute in Hi.
    repeat (destruct Hi as [<- | Hi]; [discriminate |]). destruct Hi. }
  destruct (C6_oze_username_suffix (Demo.static true Demo.oze_form) "s3cret" empty_world)
    as [Halice Hkeep].
  split.
  - exact (Halice _ eq_refl eq_refl eq_refl Hnamed).
  - destruct (Hkeep "bob@oze.example.com" "https://oze.example.com/login"
                    "oze.example.com" _ ltac:(discriminate) eq_refl eq_refl
                    eq_refl eq_refl Hnamed)
      as (payload & Hsub & Hsame & _).
    exists payload. split; [exact Hsub | exact (Hsame eq_refl)].
Defined.

(** *** Malformed pages *)

Section MalformedPages.

Variable net : network.

Lemma getitem_found (o : option node) (key v : string) :
  field_value o key = Some v -> getitem o key = Return v.
Proof. destruct o as [n |]; simpl; [| discriminate]. now intros ->. Qed.

Lemma getitem_missing (o : option node) (key : string) :
  field_value o key = None ->
  exists e, is_lookup_failure e = true /\ getitem o key = Raise e.
Proof.
  destruct o as [n |]; simpl.
  - intros ->. now exists (KeyError key).
  - intros _. now eexists (TypeError _).
Qed.

Lemma collect_inputs_nameless (inputs : list node) :
  (exists i, In i inputs /\ Html.get i "name" = None) ->
  forall d, collect_inputs inputs d = Raise (KeyError "name").
Proof.
  induction inputs as [| j rest IH]; intros (i & Hi & Hn) d; [destruct Hi |].
  simpl. destruct Hi as [-> | Hi].
  - now rewrite Hn.
  - destruct (Html.get j "name"); [| reflexivity].
    apply IH. now exists i.
Qed.

Lemma form_payload_unusable (form : option node) (username password : string) :
  unusable_form form ->
  exists e, is_lookup_failure e = true
            /\ form_payload form username password = Raise e.
Proof.
  destruct form as [form |]; simpl.
  - intros H. exists (KeyError "name"). split; [reflexivity |].
    now rewrite (collect_inputs_nameless _ H).
  - intros _. now eexists (AttributeError _ _).
Qed.

End MalformedPages.

(** C8: a page that lacks what a procedure looks up makes the procedure
    raise the failure of that lookup ([TypeError] for a subscript of [None],
    [KeyError] for a missing attribute, [AttributeError] for a method of
    [None]), with no request after the one that fetched the page.  The
    computations are built from sequencing and raising only; there is no
    handler.  Procedures that read no form and no hidden field have nothing
    to fail on here.  The page is fetched: the client sends to the URL. *)
Theorem C8_malformed_page_failure_propagates
        (net : network)
        (educonnect : option (value -> value -> value -> value -> M value))
        (username password url : string) (form_attr : list (string * string))
        (w : world) :
  url <> "" ->
  accepted net url ->
  let doc := r_text (login_page net url w) in
  (broken_request_page doc ->
     exists e, is_lookup_failure e = true
               /\ _cas_edu net educonnect username password url w
                  = (Raise e, fetched net url w))
  /\
  (unusable_form (Html.find "form" [("class", "cas__login-form")] doc) ->
     exists e, is_lookup_failure e = true
               /\ _cas net username password url w = (Raise e, fetched net url w))
  /\
  (unusable_form (Html.find "form" form_attr doc) ->
     exists e, is_lookup_failure e = true
               /\ _simple_auth net username password url form_attr w
                  = (Raise e, fetched net url w))
  /\
  (forall domain, Urllib.netloc url = Return domain ->
     unusable_form (Html.find "form" [("id", "auth_form")] doc) ->
     exists e, is_lookup_failure e = true
               /\ _oze_ent net username password url w = (Raise e, fetched net url w))
  /\
  (forall (sid : nat) (user pass : value),
     let q1 := post_request net url (credentials user pass) (jar_of w sid) in
     let r1 := answer net w q1 in
     broken_assertion_page (r_text r1) ->
     exists e, is_lookup_failure e = true
               /\ _educonnect net (VSession sid) user pass (VStr url) w
                  = (Raise e, after net w sid q1 r1)).
Proof.
  intros Hurl Hacc doc. repeat split.
  - (* CAS + EduConnect *)
    intros Hbroken. unfold _cas_edu. rewrite (eqb_empty_false _ Hurl).
    unfold bind at 1. rewrite Session_run. rewrite fetch_run, Hacc.
    fold doc. fold (RelayState_input doc) (SAMLRequest_input doc) (first_form doc).
    unfold broken_request_page in Hbroken.
    destruct (field_value (RelayState_input doc) "value") as [rs |] eqn:Ers.
    2:{ destruct (getitem_missing _ _ Ers) as (e & He & Hg).
        exists e. split; [exact He |]. unfold bind, lift. now rewrite Hg. }
    unfold bind at 1, lift at 1. rewrite (getitem_found _ _ _ Ers).
    destruct (field_value (SAMLRequest_input doc) "value") as [sr |] eqn:Esr.
    2:{ destruct (getitem_missing _ _ Esr) as (e & He & Hg).
        exists e. split; [exact He |]. unfold bind, lift. now rewrite Hg. }
    unfold bind at 1, lift at 1. rewrite (getitem_found _ _ _ Esr).
    destruct Hbroken as [H | [H | H]]; try discriminate.
    destruct (getitem_missing _ _ H) as (e & He & Hg).
    exists e. split; [exact He |]. unfold bind, lift. now rewrite Hg.
  - (* plain CAS *)
    intros Hform. rewrite (cas_run net _ _ _ _ Hurl), Hacc. fold doc.
    destruct (form_payload_unusable _ username password Hform) as (e & He & Hp).
    exists e. now rewrite Hp.
  - (* simple form *)
    intros Hform. rewrite (simple_auth_run net _ _ _ _ _ Hurl), Hacc. fold doc.
    destruct (form_payload_unusable _ username password Hform) as (e & He & Hp).
    exists e. now rewrite Hp.
  - (* Oze *)
    intros domain Hloc Hform. rewrite (oze_ent_run net _ _ _ _ Hurl), Hacc, Hloc.
    fold doc.
    destruct (form_payload_unusable _ (oze_username domain username) password Hform)
      as (e & He & Hp).
    exists e. now rewrite Hp.
  - (* the relay *)
    intros sid user pass q1 r1 [Hpresent Hbroken].
    unfold _educonnect. rewrite (truthy_str _ Hurl). fold (credentials user pass).
    rewrite post_dyn_run, Hacc. fold q1. fold r1.
    generalize (after net w sid q1 r1). intros w1.
    fold (SAMLResponse_input (r_text r1)) (RelayState_input (r_text r1))
         (first_form (r_text r1)).
    destruct (SAMLResponse_input (r_text r1)) as [i |] eqn:Ei; [| congruence].
    simpl field_value in Hbroken.
    unfold bind at 1, lift at 1, getitem at 1.
    destruct (Html.get i "value") as [v |] eqn:Ev.
    2:{ now exists (KeyError "value"). }
    destruct (RelayState_input (r_text r1)) as [t |] eqn:Et.
    + simpl field_value in Hbroken.
      unfold bind at 1. unfold bind at 1, lift at 1, getitem at 1.
      destruct (Html.get t "value") as [rs |] eqn:Erv.
      2:{ now exists (KeyError "value"). }
      unfold ret at 1.
      destruct Hbroken as [H | [[_ H] | H]]; try discriminate.
      destruct (getitem_missing _ _ H) as (e & He & Hg).
      exists e. split; [exact He |]. unfold bind, lift. now rewrite Hg.
    + unfold bind at 1, ret at 1.
      destruct Hbroken as [H | [[H _] | H]]; try discriminate; try congruence.
      destruct (getitem_missing _ _ H) as (e & He & Hg).
      exists e. split; [exact He |]. unfold bind, lift. now rewrite Hg.
Qed.

(** A page without form or inputs, and an assertion outside any form. *)
Lemma C8_malformed_page_failure_propagates_witness :
  "https://ent.example/login" <> ""
  /\ (exists e, is_lookup_failure e = true
                /\ _cas_edu (Demo.static true (Demo.plain "Erreur")) None "u" "p"
                            "https://ent.example/login" empty_world
                   = (Raise e, fetched (Demo.static true (Demo.plain "Erreur"))
                                       "https://ent.example/login" empty_world))
  /\ (exists e, is_lookup_failure e = true
                /\ _cas (Demo.static true (Demo.plain "Erreur")) "u" "p"
                        "https://ent.example/login" empty_world
                   = (Raise e, fetched (Demo.static true (Demo.plain "Erreur"))
                                       "https://ent.example/login" empty_world))
  /\ (exists e, is_lookup_failure e = true
                /\ fst (_educonnect (Demo.static true Demo.assertion_without_form)
                                    (VSession 0) (VStr "u") (VStr "p")
                                    (VStr "https://ent.example/login") (opened empty_world))
                   = Raise e).
Proof.
  pose proof (C8_malformed_page_failure_propagates
                (Demo.static true (Demo.plain "Erreur")) None "u" "p"
                "https://ent.example/login" [] empty_world ltac:(discriminate) eq_refl)
    as (Hcas_edu & Hcas & _).
  pose proof (C8_malformed_page_failure_propagates
                (Demo.static true Demo.assertion_without_form) None "u" "p"
                "https://ent.example/login" [] (opened empty_world) ltac:(discriminate)
                eq_refl)
    as (_ & _ & _ & _ & Hrelay).
  split; [discriminate | split; [| split]].
  - apply Hcas_edu. left. reflexivity.
  - apply Hcas. exact I.
  - destruct (Hrelay 0 (VStr "u") (VStr "p")) as (e & He & Hrun).
    + split; [discriminate | right; right; reflexivity].
    + exists e. split; [exact He |]. now rewrite Hrun.
Defined.

(** *** The calls of the relay and of the fallback *)

Section RelayCalls.

Variable net : network.

(** Called as [(url, session, username, password)], the relay takes the
    URL for its session and the password for its URL: it raises, and
    sends nothing. *)
Lemma educonnect_misordered (url username password : string) (sid : nat) (w : world) :
  _educonnect net (VStr url) (VSession sid) (VStr username) (VStr password) w
  = (Raise (if String.eqb password ""
            then ENTLoginError "Missing url attribute"
            else AttributeError "str" "post"), w).
Proof.
  unfold _educonnect, truthy.
  destruct (String.eqb password ""); reflexivity.
Qed.

(** The WAYF procedure raises on every input. *)
Lemma wayf_never_returns (username password domain entityID returnX : string) (w : world) :
  exists e w', _wayf net username password domain entityID returnX w = (Raise e, w').
Proof.
  unfold _wayf. destruct (String.eqb domain ""); [now eexists; eexists |].
  rewrite bind_Session, bind_get.
  destruct (refuses net _); [now eexists; eexists |].
  unfold bind. rewrite educonnect_misordered. now eexists; eexists.
Qed.

(** CAS+EduConnect raises on every input, with [educonnect] unbound and
    with [educonnect] bound to the relay of the module alike. *)
Lemma cas_edu_never_returns (username password url : string) (w : world) :
  (exists e w', _cas_edu net None username password url w = (Raise e, w'))
  /\ (exists e w', _cas_edu net (Some (_educonnect net)) username password url w
                   = (Raise e, w')).
Proof.
  split; unfold _cas_edu;
    (destruct (String.eqb url ""); [now eexists; eexists |]);
    rewrite bind_Session, bind_get;
    (destruct (refuses net url); [now eexists; eexists |]);
    match goal with
    | |- context [after net ?a ?b ?c ?d] => generalize (after net a b c d)
    end;
    intros w1;
    rewrite bind_lift;
    (destruct (getitem _ "value"); [| now eexists; eexists]);
    rewrite bind_lift;
    (destruct (getitem _ "value"); [| now eexists; eexists]);
    rewrite bind_lift;
    (destruct (getitem _ "action"); [| now eexists; eexists]);
    rewrite bind_post;
    (destruct (refuses net _); [now eexists; eexists |]);
    rewrite bind_load.
  - now eexists; eexists.
  - unfold bind. rewrite educonnect_misordered. now eexists; eexists.
Qed.

(** The SAML-first procedure with a relay that returns [None]: the
    fallback call evaluates [response.url] on [None] and raises before
    anything is called, whatever [open_ent_ng] is bound to. *)
Lemma open_ent_ng_edu_relay_none
      (relay : value -> value -> value -> value -> M value)
      (open_ent_ng : string -> string -> string -> M cookiejar)
      (username password domain : string) (w : world) :
  domain <> "" ->
  accepted net "https://educonnect.education.gouv.fr/idp/profile/SAML2/Unsolicited/SSO" ->
  (forall a b c d w0, relay a b c d w0 = (Return VNone, w0)) ->
  exists w',
    _open_ent_ng_edu net (Some relay) (Some open_ent_ng) username password domain w
      = (Raise (AttributeError "NoneType" "url"), w')
    /\ filter is_post (new_log w w') = [].
Proof.
  intros Hdom Hacc Hrelay. unfold _open_ent_ng_edu. rewrite (eqb_empty_false _ Hdom).
  rewrite bind_Session, bind_get, Hacc, bind_load.
  unfold bind at 1. rewrite Hrelay. simpl.
  eexists. split; [reflexivity |].
  erewrite new_log_app; [| unfold after; simpl; reflexivity]. reflexivity.
Qed.

(** The SAML-first procedure raises on every input, with both names
    unbound and with both bound to the procedures of the module alike. *)
Lemma open_ent_ng_edu_never_returns (username password domain : string) (w : world) :
  (exists e w', _open_ent_ng_edu net None None username password domain w = (Raise e, w'))
  /\ (exists e w',
        _open_ent_ng_edu net (Some (_educonnect net)) (Some (_open_ent_ng net))
                         username password domain w = (Raise e, w')).
Proof.
  split; unfold _open_ent_ng_edu;
    (destruct (String.eqb domain ""); [now eexists; eexists |]);
    rewrite bind_Session, bind_get;
    (destruct (refuses net _); [now eexists; eexists |]);
    rewrite bind_load.
  - now eexists; eexists.
  - unfold bind. rewrite educonnect_misordered. now eexists; eexists.
Qed.

End RelayCalls.

(** C2: a call of CAS+EduConnect on a well-formed page, with user [u],
    password [p] and a non-empty URL.  The page is fetched and
    [RelayState]/[SAMLRequest] are posted to the action of its form; then
    the call of the relay raises and no cookie jar is returned.  In the
    file as it stands the name called, [educonnect], is bound to nothing
    ([NameError]); were it bound to [_educonnect], the arguments
    [(url, session, username, password)] would land on the parameters
    [(session, username, password, url)] and [post] would be looked up on
    the URL ([AttributeError]). *)
Theorem C2_cas_edu_raises_at_relay_call :
  let net := Demo.static true Demo.saml_request_form in
  fst (_cas_edu net None "u" "p" "https://ent.example/login" empty_world)
    = Raise (NameError "educonnect")
  /\ fst (_cas_edu net (Some (_educonnect net)) "u" "p" "https://ent.example/login"
                   empty_world)
    = Raise (AttributeError "str" "post")
  /\ requests_of (snd (_cas_edu net None "u" "p" "https://ent.example/login" empty_world))
    = [(GET, "https://ent.example/login", [], []);
       (POST, "https://idp.example/sso", [],
        [("RelayState", VStr "ss:mem:1"); ("SAMLRequest", VStr "PHJlcT4=")])].
Proof. repeat split. Qed.

(** C3: a call of WAYF with user [u], password [p], a non-empty domain and
    no [entityID]/[returnX].  The discovery endpoint is requested with the
    defaults built from the domain and the fixed [origin]; then the relay,
    called as [(url, session, username, password)] against the parameters
    [(session, username, password, url)], looks [post] up on the URL and
    raises; with an empty password it takes the password for a missing URL.
    No cookie jar is returned. *)
Theorem C3_wayf_raises_at_relay_call :
  let net := Demo.static true Demo.saml_form in
  fst (_wayf net "u" "p" "https://ent.example" "" "" empty_world)
    = Raise (AttributeError "str" "post")
  /\ fst (_wayf net "u" "" "https://ent.example" "" "" empty_world)
    = Raise (ENTLoginError "Missing url attribute")
  /\ requests_of (snd (_wayf net "u" "p" "https://ent.example" "" "" empty_world))
    = [(GET, "https://ent.example/discovery/WAYF",
        [("entityID", VStr "https://ent.example/shibboleth");
         ("returnX", VStr "https://ent.example/Shibboleth.sso/Login");
         ("returnIDParam", VStr "entityID");
         ("action", VStr "selection");
         ("origin", VStr "https://_educonnect.education.gouv.fr/idp")],
        [])].
Proof. repeat split. Qed.

(** C1: calls of the SAML-first Open-ENT-NG procedure with user [u], a
    password and a non-empty domain.
    - In the file as it stands [educonnect] is bound to nothing: the call
      raises [NameError] after the discovery request.
    - With both names bound to the procedures of the module, the relay is
      called with shifted arguments and raises.
    - With a relay that returns [None], [response.url] is evaluated on
      [None]: [AttributeError], and the fallback is not called.
    - With the relay called in the order of its parameters and a resulting
      page entitled [Authentification] (or a response that is not [ok]),
      the fallback is called as [(response.url, username, password)]
      against the parameters [(username, password, url)].  It takes the
      password for its URL: with the password [p] the client refuses to
      send; with a password that reads as a URL, the URL of the response is
      posted there as [email] and the user name as [password].
    - With any other title the jar of the SAML session is returned. *)
Theorem C1_open_ent_ng_edu_fallback_calls :
  let net := Demo.saml_then true "Authentification" in
  let run relay fallback s password :=
    _open_ent_ng_edu s relay fallback "u" password "https://ent.example" empty_world in
  fst (run None None net "p") = Raise (NameError "educonnect")
  /\ fst (run (Some (_educonnect net)) (Some (_open_ent_ng net)) net "p")
     = Raise (AttributeError "str" "post")
  /\ (fst (run (Some Demo.silent_relay) (Some (_open_ent_ng net)) net "p")
      = Raise (AttributeError "NoneType" "url")
      /\ submitted empty_world
           (snd (run (Some Demo.silent_relay) (Some (_open_ent_ng net)) net "p")) = [])
  /\ (fst (run (Some (Demo.relay_in_order net)) (Some (_open_ent_ng net)) net "p")
      = Raise MissingSchema
      /\ length (requests_of
                   (snd (run (Some (Demo.relay_in_order net))
                             (Some (_open_ent_ng net)) net "p"))) = 3)
  /\ (fst (run (Some (Demo.relay_in_order net)) (Some (_open_ent_ng net)) net
               "https://p.example/x")
      = Return (CookiesOf 1)
      /\ nth_error (requests_of
                      (snd (run (Some (Demo.relay_in_order net))
                                (Some (_open_ent_ng net)) net "https://p.example/x"))) 3
         = Some (POST, "https://p.example/x", [],
                 [("email", VStr "https://sp.example/acs"); ("password", VStr "u")]))
  /\ (let net' := Demo.saml_then false "Erreur" in
      nth_error (requests_of
                   (snd (run (Some (Demo.relay_in_order net'))
                             (Some (_open_ent_ng net')) net' "https://p.example/x"))) 3
      = Some (POST, "https://p.example/x", [],
              [("email", VStr "https://sp.example/acs"); ("password", VStr "u")]))
  /\ (let net' := Demo.saml_then true "Accueil" in
      fst (run (Some (Demo.relay_in_order net')) (Some (_open_ent_ng net')) net' "p")
      = Return (CookiesOf 0)).
Proof. repeat split. Qed.

(** *** Where the posts go *)

Section PostTargets.

Variable net : network.

Lemma new_log_same (w : world) : new_log w w = [].
Proof. apply new_log_app. now rewrite app_nil_r. Qed.

Lemma new_log_opened (w : world) : new_log w (opened w) = [].
Proof. apply new_log_app. simpl. now rewrite app_nil_r. Qed.

Lemma form_outcome_log (sid : nat) (url : string) (w : world) (o : outcome dict) :
  new_log w (snd (form_outcome net sid (login_page net url w) (fetched net url w) o))
  = mkExchange (length (w_jars w)) (get_request net url [] []) (login_page net url w)
    :: match o with
       | Raise _ => []
       | Return payload =>
           match refuses net (r_url (login_page net url w)) with
           | Some _ => []
           | None =>
               let q2 := post_request net (r_url (login_page net url w)) payload
                                      (jar_of (fetched net url w) sid) in
               [mkExchange sid q2 (answer net (fetched net url w) q2)]
           end
       end.
Proof.
  apply new_log_app. unfold form_outcome. destruct o as [payload | e]; simpl.
  - destruct (refuses net (r_url (login_page net url w))); simpl.
    + reflexivity.
    + now rewrite <- app_assoc.
  - reflexivity.
Qed.

Lemma cas_ends (username password url : string) (w : world) :
  ends_as_form_procedure net url w (_cas net username password url w).
Proof.
  destruct (String.eqb_spec url "") as [-> | Hurl]; [now left |].
  rewrite (cas_run net _ _ _ _ Hurl).
  destruct (refuses net url); [now right; left |].
  right. right. eexists. reflexivity.
Qed.

Lemma simple_auth_ends (username password url : string)
      (form_attr : list (string * string)) (w : world) :
  ends_as_form_procedure net url w (_simple_auth net username password url form_attr w).
Proof.
  destruct (String.eqb_spec url "") as [-> | Hurl]; [now left |].
  rewrite (simple_auth_run net _ _ _ _ _ Hurl).
  destruct (refuses net url); [now right; left |].
  right. right. eexists. reflexivity.
Qed.

Lemma oze_ent_ends (username password url : string) (w : world) :
  ends_as_form_procedure net url w (_oze_ent net username password url w).
Proof.
  destruct (String.eqb_spec url "") as [-> | Hurl]; [now left |].
  rewrite (oze_ent_run net _ _ _ _ Hurl).
  destruct (refuses net url); [now right; left |].
  right. right.
  destruct (Urllib.netloc url) as [domain | e].
  - eexists. reflexivity.
  - now exists (Raise e).
Qed.

(** Every POST of a form-based procedure goes to the URL its fetch ended on. *)
Lemma form_procedure_posts_back (url : string) (w : world)
      (r : outcome cookiejar * world) :
  ends_as_form_procedure net url w r ->
  forall x, In x (filter is_post (new_log w (snd r))) ->
            q_url (x_request x) = r_url (login_page net url w).
Proof.
  intros [Hsame | [Hopened | [o ->]]] x.
  - rewrite Hsame, new_log_same. intros [].
  - rewrite Hopened, new_log_opened. intros [].
  - rewrite form_outcome_log. destruct o as [payload | e]; simpl.
    + destruct (refuses net (r_url (login_page net url w))); simpl.
      * intros [].
      * intros [<- | []]. reflexivity.
    + intros [].
Qed.

Lemma form_procedure_shape (url : string) (w : world)
      (r : outcome cookiejar * world) :
  ends_as_form_procedure net url w r -> fetch_then_post_back (new_log w (snd r)).
Proof.
  intros [Hsame | [Hopened | [o ->]]].
  - left. rewrite Hsame. apply new_log_same.
  - left. rewrite Hopened. apply new_log_opened.
  - rewrite form_outcome_log. destruct o as [payload | e].
    + destruct (refuses net (r_url (login_page net url w))).
      * right. left. now eexists.
      * right. right. do 2 eexists. split; reflexivity.
    + right. left. now eexists.
Qed.

Lemma open_ent_ng_shape (username password url : string) (w : world) :
  fetch_then_post_back (new_log w (snd (_open_ent_ng net username password url w))).
Proof.
  destruct (String.eqb_spec url "") as [-> | Hurl].
  - left. apply new_log_same.
  - rewrite (open_ent_ng_run net _ _ _ _ Hurl).
    destruct (refuses net url).
    + left. apply new_log_opened.
    + right. left. eexists. apply new_log_app. reflexivity.
Qed.

End PostTargets.

Lemma shape_excludes_form_action (l before between rest : list exchange)
      (x1 x2 : exchange) :
  fetch_then_post_back l ->
  l = (before ++ x1 :: between ++ x2 :: rest)%list ->
  q_url (x_request x2) = r_url (x_response x1).
Proof.
  intros [-> | [[y ->] | (y1 & y2 & -> & Hback)]] Hsplit.
  - now destruct before.
  - destruct before as [| b [| b' before]]; try discriminate.
    injection Hsplit as _ H. now destruct between.
  - destruct before as [| b before].
    + injection Hsplit as <- H. destruct between as [| c between].
      * now injection H as <- _.
      * injection H as _ H. now destruct between.
    + injection Hsplit as _ H. destruct before as [| b' before].
      * injection H as _ H. now destruct between.
      * injection H as _ H. now destruct before.
Qed.

(** C10, as the sentence reads, fails: CAS+EduConnect too posts to the
    [action] of a form, the one of the page it fetched. *)
Lemma C10_cas_edu_posts_to_form_action_counterexample :
  ~ post_targets_claim.
Proof.
  intros [_ H].
  assert (Hcas_edu : posts_to_form_action CasEdu).
  { exists (Demo.static true Demo.saml_request_form).
    exists (mkArguments 0 "u" "p" "https://ent.example/login" "" "" []).
    exists empty_world. exists [].
    eexists. exists []. eexists. exists [].
    exists (Tag "form" [("action", "https://idp.example/sso"); ("method", "post")]
                [Demo.hidden "RelayState" "ss:mem:1"; Demo.hidden "SAMLRequest" "PHJlcT4="]).
    exists "https://idp.example/sso".
    split; [vm_compute; reflexivity |].
    split; [vm_compute; tauto |].
    repeat split. discriminate. }
  discriminate (H CasEdu Hcas_edu).
Qed.

(** C10, amended: plain CAS, Oze and the simple-form procedure send every
    POST to the URL on which the fetch of the login page ended, whatever the
    [action] of the form; the EduConnect relay and CAS+EduConnect post to
    the [action] of a form; plain CAS, Oze, the simple-form procedure and
    the direct Open-ENT-NG procedure never do. *)
Theorem C10_post_targets :
  form_posts_go_to_fetched_url
  /\ posts_to_form_action EduConnect
  /\ posts_to_form_action CasEdu
  /\ ~ posts_to_form_action Cas
  /\ ~ posts_to_form_action OzeEnt
  /\ ~ posts_to_form_action SimpleAuth
  /\ ~ posts_to_form_action OpenEntNg.
Proof.
  assert (Hnever : forall p,
             (forall s a w0, fetch_then_post_back (new_log w0 (run s p a w0))) ->
             ~ posts_to_form_action p).
  { intros p Hshape (s & a & w0 & before & x1 & between & x2 & rest & form & action
                     & Hlog & _ & _ & _ & _ & Hurl & Hne).
    apply Hne. rewrite <- Hurl.
    exact (shape_excludes_form_action _ _ _ _ _ _ (Hshape s a w0) Hlog). }
  split; [| split; [| split; [| repeat split]]].
  - intros net username password url form_attr w. split; [| split].
    + apply form_procedure_posts_back, cas_ends.
    + apply form_procedure_posts_back, oze_ent_ends.
    + apply form_procedure_posts_back, simple_auth_ends.
  - exists (Demo.static true Demo.saml_form).
    exists (mkArguments 0 "u" "p" "https://idp.example/login" "" "" []).
    exists (opened empty_world). exists [].
    eexists. exists []. eexists. exists [].
    exists (Tag "form" [("action", "https://sp.example/acs"); ("method", "post")]
                [Demo.hidden "RelayState" "cookie:42";
                 Demo.hidden "SAMLResponse" "PHNhbWw+"]).
    exists "https://sp.example/acs".
    split; [vm_compute; reflexivity |].
    split; [vm_compute; tauto |].
    repeat split. discriminate.
  - exists (Demo.static true Demo.saml_request_form).
    exists (mkArguments 0 "u" "p" "https://ent.example/login" "" "" []).
    exists empty_world. exists [].
    eexists. exists []. eexists. exists [].
    exists (Tag "form" [("action", "https://idp.example/sso"); ("method", "post")]
                [Demo.hidden "RelayState" "ss:mem:1";
                 Demo.hidden "SAMLRequest" "PHJlcT4="]).
    exists "https://idp.example/sso".
    split; [vm_compute; reflexivity |].
    split; [vm_compute; tauto |].
    repeat split. discriminate.
  - apply Hnever. intros s a w0.
    apply (form_procedure_shape s (a_target a)), cas_ends.
  - apply Hnever. intros s a w0.
    apply (form_procedure_shape s (a_target a)), oze_ent_ends.
  - apply Hnever. intros s a w0.
    apply (form_procedure_shape s (a_target a)), simple_auth_ends.
  - apply Hnever. intros s a w0. apply open_ent_ng_shape.
Qed.

(** Plain CAS behind a redirect: the payload goes to the URL the fetch
    ended on, which is neither the URL asked for nor the form's [action]. *)
Lemma C10_post_targets_witness :
  exists x,
    In x (filter is_post
            (new_log empty_world
               (snd (_cas (Demo.redirecting "https://cas.example/login?service=ent"
                                            Demo.cas_form)
                          "u" "p" "https://ent.example/" empty_world))))
    /\ q_url (x_request x) = "https://cas.example/login?service=ent"
    /\ field_value (first_form (r_text (x_response x))) "action" = Some "/cas/login".
Proof.
  eexists. split; [left; reflexivity |]. split; [| reflexivity].
  match goal with
  | |- q_url (x_request ?x) = _ =>
      apply (proj1 (proj1 C10_post_targets
                      (Demo.redirecting "https://cas.example/login?service=ent"
                                        Demo.cas_form)
                      "u" "p" "https://ent.example/" [] empty_world) x)
  end.
  left. reflexivity.
Defined.

(** ** The conduct of a call: sessions, requests, cookies *)

Section Traces.

Variable net : network.

Lemma update_jar_length (jars : list cookies) (sid : nat) (new : cookies) :
  length (update_jar jars sid new) = length jars.
Proof.
  revert sid. induction jars as [| j js IH]; intros [| n]; simpl; auto.
Qed.

Lemma update_jar_other (jars : list cookies) (sid sid' : nat) (new : cookies) :
  sid' <> sid -> nth sid' (update_jar jars sid new) [] = nth sid' jars [].
Proof.
  revert sid sid'.
  induction jars as [| j js IH]; intros [| n] [| n'] Hne; simpl; auto;
    try contradiction.
Qed.

Lemma update_jar_firstn (jars : list cookies) (sid n : nat) (new : cookies) :
  n <= sid -> firstn n (update_jar jars sid new) = firstn n jars.
Proof.
  revert sid n.
  induction jars as [| j js IH]; intros [| s] [| n] Hle; simpl; auto; try lia.
  f_equal. apply IH. lia.
Qed.

Lemma trace_after (sid n : nat) (w w' : world) (q : request) (r : response) :
  trace net sid n w w' ->
  q_headers q = HEADERS ->
  q_cookies q = cookie_header net (jar_of w' sid) (q_url q) ->
  r = answer net w' q ->
  trace net sid (S n) w (after net w' sid q r).
Proof. intros Ht Hh Hc ->. now apply trace_send. Qed.

(** A session that has just been opened attaches what an empty jar does. *)
Lemma cookies_of_new_session (w : world) (url : string) :
  cookie_header net [] url
  = cookie_header net (jar_of (opened w) (length (w_jars w))) url.
Proof. now rewrite jar_of_opened. Qed.

Lemma trace_none (sid : nat) (w : world) : within_two net sid w w.
Proof. exists 0. split; [lia | constructor]. Qed.

(** What a trace adds to the log. *)
Lemma trace_log (sid n : nat) (w w' : world) :
  trace net sid n w w' ->
  exists l, w_log w' = (w_log w ++ l)%list
            /\ length l = n
            /\ Forall (fun x => x_session x = sid /\ q_headers (x_request x) = HEADERS) l.
Proof.
  induction 1 as [w | n w w' q Ht (l & Hlog & Hlen & Hall) Hh Hc].
  - exists []. now rewrite app_nil_r.
  - exists (l ++ [mkExchange sid q (answer net w' q)])%list. split; [| split].
    + simpl. rewrite Hlog. now rewrite app_assoc.
    + rewrite length_app. simpl. lia.
    + apply Forall_app. split; [exact Hall |]. now repeat constructor.
Qed.

Lemma trace_jars_length (sid n : nat) (w w' : world) :
  trace net sid n w w' -> length (w_jars w') = length (w_jars w).
Proof.
  induction 1 as [w | n w w' q Ht IH Hh Hc]; [reflexivity |].
  simpl. now rewrite update_jar_length.
Qed.

Lemma trace_jars_other (sid n : nat) (w w' : world) (sid' : nat) :
  trace net sid n w w' -> sid' <> sid -> jar_of w' sid' = jar_of w sid'.
Proof.
  induction 1 as [w | n w w' q Ht IH Hh Hc]; intros Hne; [reflexivity |].
  unfold jar_of in *. simpl. rewrite update_jar_other by exact Hne. now apply IH.
Qed.

Lemma trace_jars_firstn (sid n : nat) (w w' : world) (k : nat) :
  trace net sid n w w' -> k <= sid -> firstn k (w_jars w') = firstn k (w_jars w).
Proof.
  induction 1 as [w | n w w' q Ht IH Hh Hc]; intros Hle; [reflexivity |].
  simpl. rewrite update_jar_firstn by exact Hle. now apply IH.
Qed.

Lemma update_jar_same (jars : list cookies) (sid : nat) (new : cookies) :
  sid < length jars -> nth sid (update_jar jars sid new) [] = new.
Proof.
  revert sid. induction jars as [| j js IH]; intros [| n] Hlt; simpl in *; try lia; auto.
  apply IH. lia.
Qed.

Lemma chained_app (jar : cookies) (l : list exchange) (x : exchange) :
  chained net jar l ->
  q_cookies (x_request x) = cookie_header net (gathered net jar l) (q_url (x_request x)) ->
  chained net jar (l ++ [x]).
Proof.
  revert jar. induction l as [| y l IH]; intros jar; simpl.
  - intros _ H. now split.
  - intros [Hy Hl] Hx. split; [exact Hy |]. now apply IH.
Qed.

Lemma gathered_app (jar : cookies) (l : list exchange) (x : exchange) :
  gathered net jar (l ++ [x])
  = store net (gathered net jar l) (x_request x) (x_response x).
Proof. unfold gathered. now rewrite fold_left_app. Qed.

(** The cookies along a trace of a session that exists. *)
Lemma trace_cookies (sid n : nat) (w w' : world) :
  trace net sid n w w' ->
  sid < length (w_jars w) ->
  chained net (jar_of w sid) (new_log w w')
  /\ jar_of w' sid = gathered net (jar_of w sid) (new_log w w').
Proof.
  induction 1 as [w | n w w' q Ht IH Hh Hc]; intros Hlt.
  - rewrite (new_log_app w w []) by now rewrite app_nil_r. now split.
  - destruct (IH Hlt) as [Hch Hjar].
    destruct (trace_log _ _ _ _ Ht) as (l & Hlog & _ & _).
    rewrite (new_log_app _ _ _ Hlog) in Hch, Hjar.
    rewrite (new_log_app w _ (l ++ [mkExchange sid q (answer net w' q)])%list)
      by (simpl; rewrite Hlog; now rewrite app_assoc).
    split.
    + apply chained_app; [exact Hch |]. simpl. now rewrite <- Hjar.
    + rewrite gathered_app. simpl. rewrite <- Hjar.
      unfold jar_of at 1. simpl. apply update_jar_same.
      now rewrite (trace_jars_length _ _ _ _ Ht).
Qed.

End Traces.

Lemma procedure_eq_dec (p q : procedure) : {p = q} + {p <> q}.
Proof. decide equality. Defined.

Ltac follow_trace :=
  repeat first
    [ apply trace_done
    | eapply trace_after;
      [ | reflexivity
        | first [reflexivity | apply cookies_of_new_session]
        | reflexivity ] ].

Ltac traced := eexists; split; cycle 1; [follow_trace | lia].

Section ProcedureTraces.

Variable net : network.

(** The relay works in the session it is given, with at most two requests;
    given anything else it sends nothing. *)
Lemma educonnect_trace (session username password url : value) (w : world) :
  match session_of session with
  | Some sid =>
      within_two net sid w (snd (_educonnect net session username password url w))
  | None => snd (_educonnect net session username password url w) = w
  end.
Proof.
  unfold _educonnect.
  destruct (negb (truthy url)).
  { destruct session; simpl; try reflexivity. apply trace_none. }
  destruct session as [| s | sid | r]; simpl session_of; try reflexivity.
  destruct url as [| u | s | r]; try (simpl; apply trace_none).
  rewrite post_dyn_run.
  destruct (refuses net u); [apply trace_none |].
  destruct (Html.find "input" [("name", "SAMLResponse")] _) as [i |];
    [| simpl; traced].
  rewrite bind_lift. destruct (getitem (Some i) "value") as [v | e];
    [| simpl; traced].
  destruct (Html.find "input" [("name", "RelayState")] _) as [t |].
  - unfold bind at 1. rewrite bind_lift.
    destruct (getitem (Some t) "value") as [rs | e]; [| simpl; traced].
    unfold ret at 1. rewrite bind_lift.
    destruct (getitem _ "action") as [a | e]; [| simpl; traced].
    rewrite post_dyn_run.
    destruct (refuses net a); simpl; traced.
  - unfold bind at 1, ret at 1. rewrite bind_lift.
    destruct (getitem _ "action") as [a | e]; [| simpl; traced].
    rewrite post_dyn_run.
    destruct (refuses net a); simpl; traced.
Qed.

Lemma form_outcome_trace (url : string) (w : world) (o : outcome dict) :
  within_two net (length (w_jars w)) (opened w)
             (snd (form_outcome net (length (w_jars w)) (login_page net url w)
                                (fetched net url w) o)).
Proof.
  unfold form_outcome. destruct o as [payload | e].
  - destruct (refuses net (r_url (login_page net url w)));
      unfold fetched, login_page; simpl; traced.
  - unfold fetched, login_page; simpl; traced.
Qed.

Lemma form_procedure_trace (url : string) (w : world) (r : outcome cookiejar * world) :
  ends_as_form_procedure net url w r ->
  snd r = w \/ within_two net (length (w_jars w)) (opened w) (snd r).
Proof.
  intros [Hsame | [Hopened | [o ->]]].
  - now left.
  - right. rewrite Hopened. apply trace_none.
  - right. apply form_outcome_trace.
Qed.

(** Every other procedure either stops before it opens a session or works
    in the session it opens, with at most two requests. *)
Lemma procedure_trace (p : procedure) (a : arguments) (w : world) :
  p <> EduConnect ->
  run net p a w = w
  \/ within_two net (length (w_jars w)) (opened w) (run net p a w).
Proof.
  intros Hp. destruct p; try congruence; unfold run.
  - (* CAS + EduConnect *)
    unfold _cas_edu. destruct (String.eqb (a_target a) ""); [now left | right].
    rewrite bind_Session, bind_get. rewrite jar_of_opened.
    destruct (refuses net (a_target a)); [apply trace_none |].
    rewrite bind_lift. destruct (getitem _ "value"); [| simpl; traced].
    rewrite bind_lift. destruct (getitem _ "value"); [| simpl; traced].
    rewrite bind_lift. destruct (getitem _ "action") as [action | e]; [| simpl; traced].
    rewrite bind_post, bind_load.
    destruct (refuses net action); simpl; traced.
  - (* plain CAS *)
    apply (form_procedure_trace (a_target a)), cas_ends.
  - (* SAML-first Open-ENT-NG *)
    unfold _open_ent_ng_edu. destruct (String.eqb (a_target a) ""); [now left | right].
    rewrite bind_Session, bind_get.
    destruct (refuses net _); [apply trace_none |].
    rewrite bind_load. rewrite jar_of_opened. simpl. traced.
  - (* direct Open-ENT-NG *)
    destruct (String.eqb_spec (a_target a) "") as [-> | Hurl]; [now left | right].
    rewrite (open_ent_ng_run net _ _ _ _ Hurl).
    destruct (refuses net (a_target a)); [apply trace_none |]. simpl. traced.
  - (* WAYF *)
    unfold _wayf. destruct (String.eqb (a_target a) ""); [now left | right].
    rewrite bind_Session, bind_get. rewrite jar_of_opened.
    destruct (refuses net _); [apply trace_none |].
    unfold bind. rewrite educonnect_misordered. simpl. traced.
  - (* Oze *)
    apply (form_procedure_trace (a_target a)), oze_ent_ends.
  - (* simple form *)
    apply (form_procedure_trace (a_target a)), simple_auth_ends.
Qed.

End ProcedureTraces.

(** X6: a procedure other than the relay works in a session of its own.
    The jars of the sessions that existed before the call are left as they
    were, and every request of the call is made by the session the call
    opens. *)
Theorem X6_call_works_in_its_own_session
        (net : network)
        (p : procedure) (a : arguments) (w : world) :
  p <> EduConnect ->
  firstn (length (w_jars w)) (w_jars (run net p a w)) = w_jars w
  /\ Forall (fun x => x_session x = length (w_jars w)) (new_log w (run net p a w)).
Proof.
  intros Hp. destruct (procedure_trace net p a w Hp) as [-> | (n & _ & Ht)].
  - split; [apply firstn_all | rewrite new_log_same; constructor].
  - split.
    + rewrite (trace_jars_firstn net _ _ _ _ _ Ht (Nat.le_refl _)). simpl.
      rewrite firstn_app, Nat.sub_diag, firstn_all. simpl. apply app_nil_r.
    + destruct (trace_log net _ _ _ _ Ht) as (l & Hlog & _ & Hall).
      rewrite (new_log_app w _ l Hlog).
      eapply Forall_impl; [| exact Hall]. now intros x [Hx _].
Qed.

(** Plain CAS called in a world where a session already holds a cookie. *)
Lemma X6_call_works_in_its_own_session_witness :
  Cas <> EduConnect
  /\ firstn 1 (w_jars (run (Demo.static true Demo.cas_form) Cas
                           (mkArguments 0 "u" "p" "https://ent.example/login" "" "" [])
                           (mkWorld [] [[mkCookie "other.example" "/" "OLD" "1"]])))
     = [[mkCookie "other.example" "/" "OLD" "1"]]
  /\ w_jars (run (Demo.static true Demo.cas_form) Cas
                 (mkArguments 0 "u" "p" "https://ent.example/login" "" "" [])
                 (mkWorld [] [[mkCookie "other.example" "/" "OLD" "1"]]))
     = [[mkCookie "other.example" "/" "OLD" "1"];
        [mkCookie "ent.example" "/" "JSESSIONID" "1"]].
Proof.
  split; [discriminate | split; [| reflexivity]].
  exact (proj1 (X6_call_works_in_its_own_session
                  (Demo.static true Demo.cas_form) Cas
                  (mkArguments 0 "u" "p" "https://ent.example/login" "" "" [])
                  (mkWorld [] [[mkCookie "other.example" "/" "OLD" "1"]])
                  ltac:(discriminate))).
Defined.

(** X7: the relay opens no session and leaves every jar but the one of the
    session it is given as it was; its requests are made by that session.
    Given a receiver that is not a session, it changes nothing. *)
Theorem X7_relay_stays_in_its_session
        (net : network)
        (session username password url : value) (w : world) :
  let w' := snd (_educonnect net session username password url w) in
  length (w_jars w') = length (w_jars w)
  /\ (forall sid, session <> VSession sid -> jar_of w' sid = jar_of w sid)
  /\ Forall (fun x => session = VSession (x_session x)) (new_log w w').
Proof.
  intros w'. subst w'.
  pose proof (educonnect_trace net session username password url w) as H.
  destruct session as [| s | sid | r]; simpl in H;
    try (rewrite H; repeat split; [rewrite new_log_same; constructor]).
  destruct H as (n & _ & Ht). split; [| split].
  - apply (trace_jars_length net _ _ _ _ Ht).
  - intros sid' Hne. apply (trace_jars_other net _ _ _ _ _ Ht). congruence.
  - destruct (trace_log net _ _ _ _ Ht) as (l & Hlog & _ & Hall).
    rewrite (new_log_app w _ l Hlog).
    eapply Forall_impl; [| exact Hall]. intros x [Hx _]. now rewrite Hx.
Qed.

(** X8: every request a procedure sends carries the fixed headers. *)
Theorem X8_every_request_has_the_fixed_headers
        (net : network)
        (p : procedure) (a : arguments) (w : world) :
  Forall (fun x => q_headers (x_request x) = HEADERS) (new_log w (run net p a w)).
Proof.
  assert (Hgen : forall sid w0 w',
             w_log w0 = w_log w -> within_two net sid w0 w' ->
             Forall (fun x => q_headers (x_request x) = HEADERS) (new_log w w')).
  { intros sid w0 w' Hw (n & _ & Ht).
    destruct (trace_log net _ _ _ _ Ht) as (l & Hlog & _ & Hall).
    rewrite Hw in Hlog. rewrite (new_log_app w _ l Hlog).
    eapply Forall_impl; [| exact Hall]. now intros x [_ Hx]. }
  destruct (procedure_eq_dec p EduConnect) as [-> | Hp].
  - apply (Hgen (a_session a) w); [reflexivity |].
    exact (educonnect_trace net (VSession (a_session a)) _ _ _ w).
  - destruct (procedure_trace net p a w Hp) as [-> | Ht].
    + rewrite new_log_same. constructor.
    + exact (Hgen _ (opened w) _ eq_refl Ht).
Qed.

(** X9: the relay, plain CAS, Oze, the simple-form procedure and the direct
    Open-ENT-NG procedure never send more than two requests in a call:
    nothing is retried. *)
Theorem X9_at_most_two_requests
        (net : network)
        (p : procedure) (a : arguments) (w : world) :
  p = EduConnect \/ p = Cas \/ p = OzeEnt \/ p = SimpleAuth \/ p = OpenEntNg ->
  length (new_log w (run net p a w)) <= 2.
Proof.
  intros _.
  assert (Hgen : forall sid w0 w',
             w_log w0 = w_log w -> within_two net sid w0 w' ->
             length (new_log w w') <= 2).
  { intros sid w0 w' Hw (n & Hn & Ht).
    destruct (trace_log net _ _ _ _ Ht) as (l & Hlog & Hlen & _).
    rewrite Hw in Hlog. rewrite (new_log_app w _ l Hlog). lia. }
  destruct (procedure_eq_dec p EduConnect) as [-> | Hp].
  - apply (Hgen (a_session a) w); [reflexivity |].
    exact (educonnect_trace net (VSession (a_session a)) _ _ _ w).
  - destruct (procedure_trace net p a w Hp) as [-> | Ht].
    + rewrite new_log_same. simpl. lia.
    + exact (Hgen _ (opened w) _ eq_refl Ht).
Qed.

(** The relay on a page with an assertion: two requests. *)
Lemma X9_at_most_two_requests_witness :
  length (new_log (opened empty_world)
            (run (Demo.static true Demo.saml_form) EduConnect
                 (mkArguments 0 "u" "p" "https://idp.example/login" "" "" [])
                 (opened empty_world))) <= 2
  /\ length (new_log (opened empty_world)
               (run (Demo.static true Demo.saml_form) EduConnect
                    (mkArguments 0 "u" "p" "https://idp.example/login" "" "" [])
                    (opened empty_world))) = 2.
Proof.
  split; [| reflexivity].
  apply X9_at_most_two_requests. now left.
Defined.

(** X10: a procedure other than the relay starts with an empty cookie jar.
    Each of its requests carries what the client attaches, for the URL of
    the request, from the jar as the answers before it in the same call have
    left it, and the jar of its session ends up as these answers have left
    it: nothing of another session enters.  What a jar keeps of an answer
    and what it attaches to a request is the client's policy. *)
Theorem X10_cookies_come_from_the_call
        (net : network)
        (p : procedure) (a : arguments) (w : world) :
  p <> EduConnect ->
  chained net [] (new_log w (run net p a w))
  /\ jar_of (run net p a w) (length (w_jars w))
     = gathered net [] (new_log w (run net p a w)).
Proof.
  intros Hp. destruct (procedure_trace net p a w Hp) as [-> | (n & _ & Ht)].
  - rewrite new_log_same. split; [exact I |].
    unfold jar_of. now rewrite nth_overflow.
  - assert (Hlt : length (w_jars w) < length (w_jars (opened w))).
    { simpl. rewrite length_app. simpl. lia. }
    destruct (trace_cookies net _ _ _ _ Ht Hlt) as [Hch Hjar].
    rewrite jar_of_opened in Hch, Hjar.
    assert (Hnew : new_log (opened w) (run net p a w) = new_log w (run net p a w))
      by reflexivity.
    now rewrite Hnew in Hch, Hjar.
Qed.

(** Plain CAS under a policy of host-only cookies: the POST, which goes to
    the host of the login page, carries the cookie that page set;
    CAS+EduConnect, whose POST goes to another host, sends it none. *)
Lemma X10_cookies_come_from_the_call_witness :
  Cas <> EduConnect
  /\ chained (Demo.static true Demo.cas_form) []
       (new_log empty_world
          (run (Demo.static true Demo.cas_form) Cas
               (mkArguments 0 "u" "p" "https://ent.example/login" "" "" [])
               empty_world))
  /\ map (fun x => q_cookies (x_request x))
         (new_log empty_world
            (run (Demo.static true Demo.cas_form) Cas
                 (mkArguments 0 "u" "p" "https://ent.example/login" "" "" [])
                 empty_world))
     = [[]; [("JSESSIONID", "1")]]
  /\ map (fun x => q_cookies (x_request x))
         (new_log empty_world
            (run (Demo.static true Demo.saml_request_form) CasEdu
                 (mkArguments 0 "u" "p" "https://ent.example/login" "" "" [])
                 empty_world))
     = [[]; []].
Proof.
  split; [discriminate | split; [| split; reflexivity]].
  exact (proj1 (X10_cookies_come_from_the_call
                  (Demo.static true Demo.cas_form) Cas
                  (mkArguments 0 "u" "p" "https://ent.example/login" "" "" [])
                  empty_world ltac:(discriminate))).
Defined.

(** ** Further properties of the procedures *)

(** X1: with a non-empty domain, WAYF asks for [domain/discovery/WAYF]; a
    supplied [entityID] or [returnX] is sent as it is and an empty one is
    replaced by the default built from the domain.  When the client sends
    to that URL (the domain has to begin with a scheme), this GET is the one
    request of the call: the call of the relay that follows raises without
    sending anything, [ENTLoginError] when the password is empty and
    [AttributeError] otherwise.  When the client refuses the URL, what the
    client raises is raised and nothing is sent. *)
Theorem X1_wayf_discovery_request
        (net : network)
        (username password domain entityID returnX : string) (w : world) :
  domain <> "" ->
  let sid := length (w_jars w) in
  let q := get_request net (domain ++ "/discovery/WAYF")
                       (wayf_params domain entityID returnX) [] in
  (accepted net (domain ++ "/discovery/WAYF") ->
     _wayf net username password domain entityID returnX w
       = (Raise (if String.eqb password ""
                 then ENTLoginError "Missing url attribute"
                 else AttributeError "str" "post"),
          after net (opened w) sid q (answer net w q))
     /\ new_log w (after net (opened w) sid q (answer net w q))
        = [mkExchange sid q (answer net w q)])
  /\ (forall e, refuses net (domain ++ "/discovery/WAYF") = Some e ->
        _wayf net username password domain entityID returnX w = (Raise e, opened w)
        /\ new_log w (opened w) = [])
  /\ (entityID <> "" -> dict_get (q_params q) "entityID" = Some (VStr entityID))
  /\ (entityID = "" ->
      dict_get (q_params q) "entityID" = Some (VStr (domain ++ "/shibboleth")))
  /\ (returnX <> "" -> dict_get (q_params q) "returnX" = Some (VStr returnX))
  /\ (returnX = "" ->
      dict_get (q_params q) "returnX" = Some (VStr (domain ++ "/Shibboleth.sso/Login"))).
Proof.
  intros Hdom sid q.
  assert (Hrun : _wayf net username password domain entityID returnX w
                 = match refuses net (domain ++ "/discovery/WAYF") with
                   | Some e => (Raise e, opened w)
                   | None =>
                       (Raise (if String.eqb password ""
                               then ENTLoginError "Missing url attribute"
                               else AttributeError "str" "post"),
                        after net (opened w) sid q (answer net w q))
                   end).
  { unfold _wayf. rewrite (eqb_empty_false _ Hdom).
    rewrite bind_Session, bind_get, jar_of_opened.
    destruct (refuses net (domain ++ "/discovery/WAYF")); [reflexivity |].
    unfold bind. rewrite educonnect_misordered. reflexivity. }
  split; [| split; [| repeat split]].
  - intros Hacc. rewrite Hrun, Hacc. split; [reflexivity |].
    apply new_log_app. reflexivity.
  - intros e He. rewrite Hrun, He. split; [reflexivity |].
    apply new_log_app. simpl. now rewrite app_nil_r.
  - intros H. simpl. now rewrite (eqb_empty_false _ H).
  - intros ->. reflexivity.
  - intros H. simpl. now rewrite (eqb_empty_false _ H).
  - intros ->. reflexivity.
Qed.

(** WAYF with an [entityID] of the caller and the default [returnX], on a
    domain that begins with a scheme; and on a bare host name, which the
    client refuses. *)
Lemma X1_wayf_discovery_request_witness :
  "https://ent.example" <> ""
  /\ accepted (Demo.static true (Demo.plain "WAYF")) "https://ent.example/discovery/WAYF"
  /\ requests_of (snd (_wayf (Demo.static true (Demo.plain "WAYF")) "u" "p"
                             "https://ent.example" "urn:sp" "" empty_world))
     = [(GET, "https://ent.example/discovery/WAYF",
         [("entityID", VStr "urn:sp");
          ("returnX", VStr "https://ent.example/Shibboleth.sso/Login");
          ("returnIDParam", VStr "entityID");
          ("action", VStr "selection");
          ("origin", VStr "https://_educonnect.education.gouv.fr/idp")],
         [])]
  /\ _wayf (Demo.static true (Demo.plain "WAYF")) "u" "p" "ent.example" "urn:sp" ""
           empty_world
     = (Raise MissingSchema, opened empty_world).
Proof.
  split; [discriminate | split; [reflexivity | split]].
  - rewrite (proj1 (proj1 (X1_wayf_discovery_request
                             (Demo.static true (Demo.plain "WAYF")) "u" "p"
                             "https://ent.example" "urn:sp" "" empty_world
                             ltac:(discriminate))
                          eq_refl)).
    reflexivity.
  - exact (proj1 (proj1 (proj2 (X1_wayf_discovery_request
                                  (Demo.static true (Demo.plain "WAYF")) "u" "p"
                                  "ent.example" "urn:sp" "" empty_world
                                  ltac:(discriminate)))
                        MissingSchema eq_refl)).
Defined.

(** X2: on a page that has the inputs [RelayState] and [SAMLRequest] with
    their values and a form with its action (the first form of the page),
    CAS+EduConnect, having fetched the page from a URL the client sends to,
    posts exactly these two fields to the action as the page gives it (the
    credentials are in neither request), with the cookies the jar of its
    session attaches for that URL.  When the client sends to the action,
    [educonnect] is then called with the URL that POST ended on, the
    session, the user name and the password, in this order: with the name
    unbound that call raises [NameError]; with the name bound, what the
    callee returns is dropped and the jar of the session is returned, and
    what the callee raises is raised.  When the client refuses the action
    (a relative one, for instance), what the client raises is raised, no
    POST is sent and [educonnect] is not called. *)
Theorem X2_cas_edu_handshake
        (net : network)
        (educonnect : option (value -> value -> value -> value -> M value))
        (username password url rs sr action : string) (w : world) :
  url <> "" ->
  accepted net url ->
  let doc := r_text (login_page net url w) in
  field_value (RelayState_input doc) "value" = Some rs ->
  field_value (SAMLRequest_input doc) "value" = Some sr ->
  field_value (first_form doc) "action" = Some action ->
  let sid := length (w_jars w) in
  let x1 := mkExchange sid (get_request net url [] []) (login_page net url w) in
  let w1 := fetched net url w in
  let q2 := post_request net action [("RelayState", VStr rs); ("SAMLRequest", VStr sr)]
                         (jar_of w1 sid) in
  let r2 := answer net w1 q2 in
  let w2 := after net w1 sid q2 r2 in
  (accepted net action ->
     new_log w w2 = [x1; mkExchange sid q2 r2]
     /\ _cas_edu net educonnect username password url w
        = match educonnect with
          | None => (Raise (NameError "educonnect"), w2)
          | Some f =>
              match f (VStr (r_url r2)) (VSession sid) (VStr username) (VStr password) w2 with
              | (Return _, w3) => (Return (CookiesOf sid), w3)
              | (Raise e, w3) => (Raise e, w3)
              end
          end)
  /\ (forall e, refuses net action = Some e ->
        new_log w w1 = [x1]
        /\ _cas_edu net educonnect username password url w = (Raise e, w1)).
Proof.
  intros Hurl Hacc doc Hrs Hsr Hact sid x1 w1 q2 r2 w2.
  assert (Hrun : _cas_edu net educonnect username password url w
                 = match refuses net action with
                   | Some e => (Raise e, w1)
                   | None =>
                       bind (load_global "educonnect" educonnect)
                            (fun f =>
                               bind (f (VStr (r_url r2)) (VSession sid)
                                       (VStr username) (VStr password))
                                    (fun _ => ret (CookiesOf sid))) w2
                   end).
  { unfold _cas_edu. rewrite (eqb_empty_false _ Hurl).
    rewrite bind_Session, fetch_run, Hacc. fold doc.
    fold (RelayState_input doc) (SAMLRequest_input doc) (first_form doc).
    rewrite bind_lift, (getitem_found _ _ _ Hrs).
    rewrite bind_lift, (getitem_found _ _ _ Hsr).
    rewrite bind_lift, (getitem_found _ _ _ Hact).
    rewrite bind_post. reflexivity. }
  split.
  - intros Hacc2. split.
    + apply new_log_app. unfold w2, w1, fetched, after. simpl.
      now rewrite <- app_assoc.
    + rewrite Hrun, Hacc2, bind_load.
      destruct educonnect as [f |]; [| reflexivity].
      unfold bind, ret.
      destruct (f _ _ _ _ w2) as [[v | e] w3]; reflexivity.
  - intros e He. split.
    + apply new_log_app. reflexivity.
    + rewrite Hrun, He. reflexivity.
Qed.

(** CAS+EduConnect with the relay called in the order of its parameters. *)
Lemma X2_cas_edu_handshake_witness :
  "https://ent.example/login" <> ""
  /\ accepted (Demo.static true Demo.saml_request_form) "https://ent.example/login"
  /\ accepted (Demo.static true Demo.saml_request_form) "https://idp.example/sso"
  /\ fst (_cas_edu (Demo.static true Demo.saml_request_form)
                   (Some (Demo.relay_in_order (Demo.static true Demo.saml_request_form)))
                   "u" "p" "https://ent.example/login" empty_world)
     = Return (CookiesOf 0).
Proof.
  split; [discriminate | split; [reflexivity | split; [reflexivity |]]].
  rewrite (proj2 (proj1 (X2_cas_edu_handshake
                           (Demo.static true Demo.saml_request_form)
                           (Some (Demo.relay_in_order
                                    (Demo.static true Demo.saml_request_form)))
                           "u" "p" "https://ent.example/login"
                           "ss:mem:1" "PHJlcT4=" "https://idp.example/sso" empty_world
                           ltac:(discriminate) eq_refl eq_refl eq_refl eq_refl)
                        eq_refl)).
  reflexivity.
Defined.

(** X3: what the SAML-first Open-ENT-NG procedure does with the result of
    the call it makes at [educonnect], for any binding of the two names.
    [None] makes it raise on [response.url]; a response that is not [ok]
    sends it to the fallback without a look at the title; an [ok] response
    sends it to the fallback when the title is [Authentification], makes it
    return the jar of its session for any other title, and raise when the
    page has no title.  The fallback is called with the URL of the
    response, the user name and the password, in this order, and its result
    is the result.  What the callee raises is raised.  The call is made
    once the discovery request has been answered: the client sends to the
    address of EduConnect. *)
Theorem X3_open_ent_ng_edu_decision
        (net : network)
        (relay : value -> value -> value -> value -> M value)
        (fallback : string -> string -> string -> M cookiejar)
        (username password domain : string) (w : world) :
  domain <> "" ->
  accepted net "https://educonnect.education.gouv.fr/idp/profile/SAML2/Unsolicited/SSO" ->
  let sid := length (w_jars w) in
  let q1 := get_request net
              "https://educonnect.education.gouv.fr/idp/profile/SAML2/Unsolicited/SSO"
              [("providerId", VStr (domain ++ "/auth/saml/metadata/idp.xml"))] [] in
  let w1 := after net (opened w) sid q1 (answer net w q1) in
  let called := relay (VStr (r_url (answer net w q1))) (VSession sid)
                      (VStr username) (VStr password) w1 in
  let result := _open_ent_ng_edu net (Some relay) (Some fallback)
                                 username password domain w in
  (forall e w2, called = (Raise e, w2) -> result = (Raise e, w2))
  /\ (forall w2, called = (Return VNone, w2) ->
        result = (Raise (AttributeError "NoneType" "url"), w2))
  /\ (forall r w2, called = (Return (VResponse r), w2) -> r_ok r = false ->
        result = fallback (r_url r) username password w2)
  /\ (forall r w2 t, called = (Return (VResponse r), w2) -> r_ok r = true ->
        Html.find "title" [] (r_text r) = Some t ->
        Html.get_text t = "Authentification" ->
        result = fallback (r_url r) username password w2)
  /\ (forall r w2 t, called = (Return (VResponse r), w2) -> r_ok r = true ->
        Html.find "title" [] (r_text r) = Some t ->
        Html.get_text t <> "Authentification" ->
        result = (Return (CookiesOf sid), w2))
  /\ (forall r w2, called = (Return (VResponse r), w2) -> r_ok r = true ->
        Html.find "title" [] (r_text r) = None ->
        result = (Raise (AttributeError "NoneType" "get_text"), w2)).
Proof.
  intros Hdom Hacc sid q1 w1 called result.
  assert (Hstart : result
                   = match called with
                     | (Return response, w2) =>
                         (if negb (truthy response) then
                            bind (load_global "open_ent_ng" (Some fallback))
                                 (fun g => bind (getattr_url response)
                                                (fun u => g u username password))
                          else
                            bind (getattr_text response)
                                 (fun text =>
                                    match Html.find "title" [] text with
                                    | None => raise (AttributeError "NoneType" "get_text")
                                    | Some title =>
                                        if String.eqb (Html.get_text title) "Authentification"
                                        then bind (load_global "open_ent_ng" (Some fallback))
                                                  (fun g => bind (getattr_url response)
                                                                 (fun u => g u username password))
                                        else ret (CookiesOf sid)
                                    end)) w2
                     | (Raise e, w2) => (Raise e, w2)
                     end).
  { unfold result, _open_ent_ng_edu. rewrite (eqb_empty_false _ Hdom).
    rewrite bind_Session, bind_get, Hacc, jar_of_opened, bind_load.
    unfold bind at 1. change (relay _ _ _ _ _) with called.
    destruct called as [[v | e] w2]; reflexivity. }
  rewrite Hstart. repeat split.
  - intros e w2 ->. reflexivity.
  - intros w2 ->. reflexivity.
  - intros r w2 -> Hok. simpl. rewrite Hok. reflexivity.
  - intros r w2 t -> Hok Ht Htext. simpl. rewrite Hok. simpl.
    unfold bind at 1. simpl. rewrite Ht, Htext. reflexivity.
  - intros r w2 t -> Hok Ht Htext. simpl. rewrite Hok. simpl.
    unfold bind at 1. simpl. rewrite Ht.
    destruct (String.eqb_spec (Html.get_text t) "Authentification"); [contradiction |].
    reflexivity.
  - intros r w2 -> Hok Ht. simpl. rewrite Hok. simpl.
    unfold bind at 1. simpl. rewrite Ht. reflexivity.
Qed.

(** SAML-first with the relay called in the order of its parameters: an
    answer that is not [ok] goes to the fallback, which posts to what it is
    given as third argument; a page with another title gives the jar of the
    SAML session. *)
Lemma X3_open_ent_ng_edu_decision_witness :
  "https://ent.example" <> ""
  /\ accepted (Demo.saml_then false "Accueil")
              "https://educonnect.education.gouv.fr/idp/profile/SAML2/Unsolicited/SSO"
  /\ fst (_open_ent_ng_edu (Demo.saml_then false "Accueil")
                           (Some (Demo.relay_in_order (Demo.saml_then false "Accueil")))
                           (Some (_open_ent_ng (Demo.saml_then false "Accueil")))
                           "u" "https://p.example/x" "https://ent.example" empty_world)
     = Return (CookiesOf 1)
  /\ fst (_open_ent_ng_edu (Demo.saml_then true "Accueil")
                           (Some (Demo.relay_in_order (Demo.saml_then true "Accueil")))
                           (Some (_open_ent_ng (Demo.saml_then true "Accueil")))
                           "u" "p" "https://ent.example" empty_world)
     = Return (CookiesOf 0).
Proof.
  split; [discriminate | split; [reflexivity | split]].
  - pose proof (X3_open_ent_ng_edu_decision
                  (Demo.saml_then false "Accueil")
                  (Demo.relay_in_order (Demo.saml_then false "Accueil"))
                  (_open_ent_ng (Demo.saml_then false "Accueil"))
                  "u" "https://p.example/x" "https://ent.example" empty_world
                  ltac:(discriminate) eq_refl)
      as (_ & _ & Hnot_ok & _).
    cbv zeta in Hnot_ok. erewrite Hnot_ok; cycle 1;
      [vm_compute; reflexivity | reflexivity | reflexivity].
  - pose proof (X3_open_ent_ng_edu_decision
                  (Demo.saml_then true "Accueil")
                  (Demo.relay_in_order (Demo.saml_then true "Accueil"))
                  (_open_ent_ng (Demo.saml_then true "Accueil"))
                  "u" "p" "https://ent.example" empty_world ltac:(discriminate) eq_refl)
      as (_ & _ & _ & _ & Hother & _).
    cbv zeta in Hother. erewrite Hother; cycle 1;
      [vm_compute; reflexivity | reflexivity | reflexivity | discriminate | reflexivity].
Defined.

(** X4: plain CAS is the simple-form procedure with the filter
    [class = cas__login-form]; Oze, on a URL with a network location, is the
    simple-form procedure with the filter [id = auth_form] and the suffixed
    user name. *)
Theorem X4_cas_and_oze_are_simple_forms
        (net : network)
        (username password url : string) (w : world) :
  _cas net username password url w
    = _simple_auth net username password url [("class", "cas__login-form")] w
  /\ (forall domain,
        Urllib.netloc url = Return domain ->
        _oze_ent net username password url w
        = _simple_auth net (oze_username domain username) password url
                       [("id", "auth_form")] w).
Proof.
  split; [reflexivity |]. intros domain Hloc.
  destruct (String.eqb_spec url "") as [-> | Hurl]; [reflexivity |].
  rewrite (oze_ent_run net _ _ _ _ Hurl), (simple_auth_run net _ _ _ _ _ Hurl), Hloc.
  reflexivity.
Qed.

(** Oze with [alice] is the simple-form procedure with [alice@oze.example.com]. *)
Lemma X4_cas_and_oze_are_simple_forms_witness :
  _oze_ent (Demo.static true Demo.oze_form) "alice" "p"
           "https://oze.example.com/login" empty_world
  = _simple_auth (Demo.static true Demo.oze_form) "alice@oze.example.com" "p"
                 "https://oze.example.com/login" [("id", "auth_form")] empty_world.
Proof.
  exact (proj2 (X4_cas_and_oze_are_simple_forms
                  (Demo.static true Demo.oze_form) "alice" "p"
                  "https://oze.example.com/login" empty_world)
               "oze.example.com" eq_refl).
Defined.

Section Substrings.

Lemma prefix_refl (s : string) : String.prefix s s = true.
Proof.
  induction s as [| c s IH]; simpl; [reflexivity |].
  destruct (ascii_dec c c); [exact IH | contradiction].
Qed.

Lemma contains_prefix (needle hay : string) :
  String.prefix needle hay = true -> Str.contains needle hay = true.
Proof. intros H. destruct hay; cbn [Str.contains]; now rewrite H. Qed.

Lemma contains_app_right (before needle : string) :
  Str.contains needle (before ++ needle) = true.
Proof.
  induction before as [| c before IH].
  - apply contains_prefix, prefix_refl.
  - change (String c before ++ needle) with (String c (before ++ needle)).
    cbn [Str.contains].
    destruct (String.prefix needle (String c (before ++ needle))); [reflexivity | exact IH].
Qed.

Lemma append_assoc (a b c : string) : (a ++ b) ++ c = a ++ b ++ c.
Proof. induction a as [| x a IH]; simpl; [reflexivity | now rewrite IH]. Qed.

Lemma oze_username_idempotent (domain username : string) :
  oze_username domain (oze_username domain username) = oze_username domain username.
Proof.
  unfold oze_username.
  destruct (Str.contains domain username) eqn:E; cbn [negb].
  - now rewrite E.
  - rewrite <- append_assoc. now rewrite contains_app_right.
Qed.

End Substrings.

(** X5: the suffix of Oze is added once.  Calling Oze with the name a
    former call submitted does what calling it with the original name
    does. *)
Theorem X5_oze_suffix_is_added_once
        (net : network)
        (username password url domain : string) (w : world) :
  Urllib.netloc url = Return domain ->
  _oze_ent net (oze_username domain username) password url w
  = _oze_ent net username password url w.
Proof.
  intros Hloc. destruct (String.eqb_spec url "") as [-> | Hurl]; [reflexivity |].
  rewrite !(oze_ent_run net _ _ _ _ Hurl), Hloc.
  now rewrite oze_username_idempotent.
Qed.

(** Oze with [alice@oze.example.com] and with [alice]. *)
Lemma X5_oze_suffix_is_added_once_witness :
  _oze_ent (Demo.static true Demo.oze_form) "alice@oze.example.com" "p"
           "https://oze.example.com/login" empty_world
  = _oze_ent (Demo.static true Demo.oze_form) "alice" "p"
             "https://oze.example.com/login" empty_world.
Proof.
  exact (X5_oze_suffix_is_added_once
           (Demo.static true Demo.oze_form) "alice" "p"
           "https://oze.example.com/login" "oze.example.com" empty_world eq_refl).
Defined.

Section PayloadKeys.

Lemma dict_keys_set_new (d : dict) (k : string) (v : value) :
  In k (dict_keys (dict_set d k v)).
Proof.
  induction d as [| [k0 v0] d IH]; simpl; [now left |].
  destruct (String.eqb k0 k); simpl; [now left | now right].
Qed.

Lemma dict_keys_set_old (d : dict) (k k' : string) (v : value) :
  In k' (dict_keys d) -> In k' (dict_keys (dict_set d k v)).
Proof.
  induction d as [| [k0 v0] d IH]; simpl; [intros [] |].
  destruct (String.eqb_spec k0 k) as [-> | Hne]; simpl.
  - intros [H | H]; [now left | now right].
  - intros [H | H]; [now left | right; now apply IH].
Qed.

Lemma dict_set_NoDup (d : dict) (k : string) (v : value) :
  NoDup (dict_keys d) -> NoDup (dict_keys (dict_set d k v)).
Proof.
  induction d as [| [k0 v0] d IH]; simpl; intros Hnd.
  - constructor; [intros [] | constructor].
  - inversion Hnd as [| ? ? Hnotin Hnd']; subst.
    destruct (String.eqb_spec k0 k) as [-> | Hne]; simpl.
    + now constructor.
    + constructor; [| now apply IH].
      intros Hin. destruct (dict_keys_set _ _ _ _ Hin) as [-> | Hold]; contradiction.
Qed.

Lemma collect_inputs_NoDup (inputs : list node) :
  forall d p, collect_inputs inputs d = Return p ->
              NoDup (dict_keys d) -> NoDup (dict_keys p).
Proof.
  induction inputs as [| i rest IH]; intros d p; simpl.
  - now intros [= ->].
  - destruct (Html.get i "name"); [| discriminate].
    intros H Hnd. apply (IH _ _ H). now apply dict_set_NoDup.
Qed.

Lemma collect_inputs_keeps (inputs : list node) :
  forall d p k, collect_inputs inputs d = Return p ->
                In k (dict_keys d) -> In k (dict_keys p).
Proof.
  induction inputs as [| i rest IH]; intros d p k; simpl.
  - now intros [= ->].
  - destruct (Html.get i "name"); [| discriminate].
    intros H Hin. apply (IH _ _ _ H). now apply dict_keys_set_old.
Qed.

Lemma collect_inputs_names (inputs : list node) :
  forall d p i k, collect_inputs inputs d = Return p ->
                  In i inputs -> Html.get i "name" = Some k -> In k (dict_keys p).
Proof.
  induction inputs as [| j rest IH]; intros d p i k; simpl; [intros _ [] |].
  destruct (Html.get j "name") as [m |] eqn:Em; [| discriminate].
  intros H [-> | Hin] Hk.
  - rewrite Hk in Em. injection Em as <-.
    apply (collect_inputs_keeps _ _ _ _ H), dict_keys_set_new.
  - exact (IH _ _ _ _ H Hin Hk).
Qed.

End PayloadKeys.

(** X11: the payload a form-based procedure builds holds no key twice, and
    its keys are [username], [password] and the names of the inputs of the
    form, each of them, whether or not a later input bears the same name. *)
Theorem X11_payload_keys
        (form : node) (username password : string) (payload : dict) :
  form_payload (Some form) username password = Return payload ->
  NoDup (dict_keys payload)
  /\ (forall k, In k (dict_keys payload) <->
                k = "username" \/ k = "password"
                \/ exists i, In i (inputs_of form) /\ Html.get i "name" = Some k).
Proof.
  unfold form_payload. fold (inputs_of form).
  destruct (collect_inputs (inputs_of form) []) as [p | e] eqn:Hp; [| discriminate].
  intros [= <-]. split.
  - apply dict_set_NoDup, dict_set_NoDup.
    apply (collect_inputs_NoDup _ _ _ Hp). constructor.
  - intros k. split.
    + intros Hk.
      destruct (dict_keys_set _ _ _ _ Hk) as [-> | Hk1]; [now right; left |].
      destruct (dict_keys_set _ _ _ _ Hk1) as [-> | Hk2]; [now left |].
      destruct (collect_inputs_keys _ _ _ _ Hp Hk2) as [[] | Hin].
      now right; right.
    + intros [-> | [-> | (i & Hi & Hn)]].
      * apply dict_keys_set_old, dict_keys_set_new.
      * apply dict_keys_set_new.
      * apply dict_keys_set_old, dict_keys_set_old.
        exact (collect_inputs_names _ _ _ _ _ Hp Hi Hn).
Qed.

(** The payload built from the form with two inputs named [lt]. *)
Lemma X11_payload_keys_witness :
  NoDup ["lt"; "username"; "password"]
  /\ dict_keys [("lt", VStr "LT-2"); ("username", VStr "u"); ("password", VStr "p")]
     = ["lt"; "username"; "password"].
Proof.
  split; [| reflexivity].
  exact (proj1 (X11_payload_keys
                  (Tag "form" [("class", "cas__login-form"); ("action", "/cas/login")]
                       [Demo.hidden "lt" "LT-1"; Demo.hidden "lt" "LT-2"])
                  "u" "p"
                  [("lt", VStr "LT-2"); ("username", VStr "u"); ("password", VStr "p")]
                  eq_refl)).
Defined.
